(** * Warehouse-Robot: grid world, Gymnasium adapter and tabular Q-learning

    A shallow embedding of [warehouseRobot.py], [warehouseRobotEnv.py] and
    [warehouseRobotTrain.py].

    - Python integers are [Z]; Python/NumPy floats are IEEE-754 binary64,
      i.e. Rocq's primitive [float] with round-to-nearest-even.
    - A method that mutates [self] is a function from the object to the
      updated object; an exception is a [Raise] in the [result] monad.
    - The standard module [random], [numpy] and Gymnasium's action space are
      libraries outside the repository.  Their generators are parameters
      ([RandomGen], [ActionSampler]) constrained only by the documented
      contracts; [np.argmax], [np.max], [np.mean] and indexing of a dense
      array are written out below.
    - Rendering (console printing, the pygame window) has no effect on the
      simulation state and is left out. *)

From Stdlib Require Import ZArith Lia Bool List Floats.
From stdpp Require Import base option list.
Import ListNotations.

#[local] Open Scope Z_scope.

(** ** Exceptions *)

Inductive exn : Type :=
| ValueError
| IndexError.

Inductive result (A : Type) : Type :=
| Ok (a : A)
| Raise (e : exn).
Arguments Ok {A} a.
Arguments Raise {A} e.

#[global] Instance result_ret : MRet result := fun _ a => Ok a.
#[global] Instance result_bind : MBind result := fun _ _ k m =>
  match m with
  | Ok a => k a
  | Raise e => Raise e
  end.

(** ** The generator of the module [random]

    [random.seed(a)], [random.randint(a, b)] and [random.random()] act on one
    process-wide generator.  Its state type and its primitive draws are
    parameters. *)

Class RandomGen : Type := {
  rng : Type;
  (* the generator state that [random.seed(k)] installs for an integer k *)
  rng_of_int : Z -> rng;
  (* random._randbelow(n): a draw below n, and the next state *)
  rng_randbelow : Z -> rng -> Z * rng;
  (* random.random(): a float in [0.0, 1.0), and the next state *)
  rng_random : rng -> float * rng
}.

(** The documented ranges of the draws. *)
Definition randbelow_in_range `{RandomGen} : Prop :=
  forall n g, 0 < n -> 0 <= fst (rng_randbelow n g) < n.

Definition random_in_unit `{RandomGen} : Prop :=
  forall g, (fst (rng_random g) <? 0)%float = false.

Section Random.
Context `{RandomGen}.

(** [random.seed(a)]: an integer seeds the generator directly; [None] seeds
    it from the operating system's entropy, an input of the model. *)
Definition random_seed (a : option Z) (os_entropy : Z) : rng :=
  match a with
  | Some k => rng_of_int k
  | None => rng_of_int os_entropy
  end.

(** [random.randrange(start, stop)] and [random.randint(a, b)]. *)
Definition randrange (start stop : Z) (g : rng) : result (Z * rng) :=
  let width := stop - start in
  if 0 <? width then
    let '(r, g') := rng_randbelow width g in Ok (start + r, g')
  else Raise ValueError.

Definition randint (a b : Z) (g : rng) : result (Z * rng) :=
  randrange a (b + 1) g.
End Random.

(** ** warehouseRobot.py *)

Inductive RobotAction : Type :=
| LEFT
| DOWN
| RIGHT
| UP.

Definition RobotAction_value (a : RobotAction) : Z :=
  match a with
  | LEFT => 0
  | DOWN => 1
  | RIGHT => 2
  | UP => 3
  end.

(** The enumeration call [RobotAction(v)]. *)
Definition RobotAction_call (v : Z) : result RobotAction :=
  if v =? 0 then Ok LEFT
  else if v =? 1 then Ok DOWN
  else if v =? 2 then Ok RIGHT
  else if v =? 3 then Ok UP
  else Raise ValueError.

#[global] Instance RobotAction_eq_dec : EqDecision RobotAction.
Proof. solve_decision. Defined.

Module WarehouseRobot.

(** The simulation attributes of a [WarehouseRobot] object.  [robot_pos]
    and [target_pos] are the two-element lists [[row, col]]; [reset] builds
    them as two separate lists and no code stores one in the other, so
    they are modelled by value.  [last_action] is [''] ([None] here) until
    the first action. *)
Record t : Type := mk {
  grid_rows : Z;
  grid_cols : Z;
  robot_pos : Z * Z;
  target_pos : Z * Z;
  last_action : option RobotAction
}.

Definition set_robot_pos (p : Z * Z) (self : t) : t :=
  mk (grid_rows self) (grid_cols self) p (target_pos self) (last_action self).

Definition set_target_pos (p : Z * Z) (self : t) : t :=
  mk (grid_rows self) (grid_cols self) (robot_pos self) p (last_action self).

Definition set_last_action (a : RobotAction) (self : t) : t :=
  mk (grid_rows self) (grid_cols self) (robot_pos self) (target_pos self)
     (Some a).

Section WithRandom.
Context `{RandomGen}.

(** [reset(self, seed=None)].  The shared generator is overwritten by
    [random.seed], so the call does not read its previous state; the
    state left behind is returned next to the object. *)
Definition reset (seed : option Z) (os_entropy : Z) (self : t)
  : result (t * rng) :=
  let self := set_robot_pos (0, 0) self in
  let g := random_seed seed os_entropy in
  '(r, g) ← randint 1 (grid_rows self - 1) g;
  '(c, g) ← randint 1 (grid_cols self - 1) g;
  Ok (set_target_pos (r, c) self, g).
End WithRandom.

(** [perform_action(self, robot_action)]: the returned flag and the
    updated object. *)
Definition perform_action (robot_action : RobotAction) (self : t)
  : bool * t :=
  let self := set_last_action robot_action self in
  let '(row, col) := robot_pos self in
  let self :=
    match robot_action with
    | LEFT =>
        if 0 <? col then set_robot_pos (row, col - 1) self else self
    | RIGHT =>
        if col <? grid_cols self - 1 then set_robot_pos (row, col + 1) self
        else self
    | UP =>
        if 0 <? row then set_robot_pos (row - 1, col) self else self
    | DOWN =>
        if row <? grid_rows self - 1 then set_robot_pos (row + 1, col) self
        else self
    end in
  (bool_decide (robot_pos self = target_pos self), self).

End WarehouseRobot.

(** ** warehouseRobotEnv.py *)

Module WarehouseRobotEnv.

(** The environment object: the grid size it was built with and the
    [WarehouseRobot] it owns. *)
Record t : Type := mk {
  grid_rows : Z;
  grid_cols : Z;
  warehouse_robot : WarehouseRobot.t
}.

Definition set_warehouse_robot (w : WarehouseRobot.t) (self : t) : t :=
  mk (grid_rows self) (grid_cols self) w.

(** The observation [np.concatenate((robot_pos, target_pos))]: a fresh
    array of four integers. *)
Definition observation (w : WarehouseRobot.t) : list Z :=
  [ (WarehouseRobot.robot_pos w).1; (WarehouseRobot.robot_pos w).2;
    (WarehouseRobot.target_pos w).1; (WarehouseRobot.target_pos w).2 ].

(** What [step] returns: [obs, reward, terminated, truncated, info]; the
    always empty [info] is left out. *)
Record step_result : Type := mk_step {
  obs : list Z;
  reward : Z;
  terminated : bool;
  truncated : bool
}.

Section WithRandom.
Context `{RandomGen}.

(** [reset(self, seed=None, options=None)]; the base class only reseeds
    the environment's own [np_random], which nothing here reads. *)
Definition reset (seed : option Z) (os_entropy : Z) (self : t)
  : result (list Z * t * rng) :=
  '(w, g) ← WarehouseRobot.reset seed os_entropy (warehouse_robot self);
  Ok (observation w, set_warehouse_robot w self, g).
End WithRandom.

(** [step(self, action)]. *)
Definition step (action : Z) (self : t) : result (step_result * t) :=
  a ← RobotAction_call action;
  let '(target_reached, w) :=
    WarehouseRobot.perform_action a (warehouse_robot self) in
  let reward := 0 in
  let terminated := false in
  let '(reward, terminated) :=
    if target_reached then (1, true) else (reward, terminated) in
  let obs := observation w in
  Ok (mk_step obs reward terminated false, set_warehouse_robot w self).

End WarehouseRobotEnv.

(** ** NumPy arrays of floats

    A dense array is its shape and its elements in row-major order. *)

Record ndarray : Type := mk_ndarray {
  shape : list Z;
  data : list float
}.

Definition size_of (sh : list Z) : Z := foldr Z.mul 1 sh.

Definition ndarray_wf (a : ndarray) : Prop :=
  Forall (fun d => 0 <= d) (shape a) /\
  Z.of_nat (length (data a)) = size_of (shape a).

(** [np.zeros(shape)]. *)
Definition np_zeros (sh : list Z) : ndarray :=
  mk_ndarray sh (replicate (Z.to_nat (size_of sh)) 0%float).

(** Indexing by a tuple of integers: the row-major offset of the selected
    block, counted in blocks, and the shape of the block.  A negative index
    counts from the end; an index outside its axis, or more indices than
    axes, is an [IndexError]. *)
Fixpoint resolve_index (sh idx : list Z) (acc : Z) {struct idx}
  : result (Z * list Z) :=
  match idx with
  | [] => Ok (acc, sh)
  | i :: idx' =>
      match sh with
      | [] => Raise IndexError
      | d :: sh' =>
          let j := if i <? 0 then i + d else i in
          if (0 <=? j) && (j <? d)
          then resolve_index sh' idx' (acc * d + j)
          else Raise IndexError
      end
  end.

(** [a[idx]]: the selected sub-array. *)
Definition getitem (a : ndarray) (idx : list Z) : result ndarray :=
  '(k, rest) ← resolve_index (shape a) idx 0;
  let n := Z.to_nat (size_of rest) in
  Ok (mk_ndarray rest (take n (drop (Z.to_nat k * n) (data a)))).

(** [a[idx]] read as a number, for an index tuple that names one element,
    as [q[q_state_action_idx]] does on the five-dimensional table. *)
Definition getitem_scalar (a : ndarray) (idx : list Z) : result float :=
  '(k, rest) ← resolve_index (shape a) idx 0;
  match rest, data a !! Z.to_nat k with
  | [], Some x => Ok x
  | _, _ => Raise IndexError
  end.

(** [a[idx] = x] for a number [x]: every element of the selected block is
    overwritten. *)
Definition setitem (a : ndarray) (idx : list Z) (x : float) : result ndarray :=
  '(k, rest) ← resolve_index (shape a) idx 0;
  let n := Z.to_nat (size_of rest) in
  Ok (mk_ndarray (shape a)
        (list_inserts (Z.to_nat k * n) (replicate n x) (data a))).

(** [np.argmax(a)] over the flattened array: the running maximum is replaced
    only by an element that is not [<=] it, and a NaN, once met, stays the
    maximum. *)
Fixpoint argmax_from (mp : float) (max_ind i : Z) (l : list float) : Z :=
  match l with
  | [] => max_ind
  | x :: l' =>
      if is_nan mp then max_ind
      else if negb (x <=? mp)%float then argmax_from x i (i + 1) l'
      else argmax_from mp max_ind (i + 1) l'
  end.

Definition np_argmax (a : ndarray) : result Z :=
  match data a with
  | [] => Raise ValueError
  | x :: l => Ok (argmax_from x 0 1 l)
  end.

(** [np.max(a)]: the maximum of two elements keeps the left one when it is a
    NaN or is greater, and takes the right one otherwise. *)
Definition fmax (a b : float) : float :=
  if is_nan a then a else if (b <? a)%float then a else b.

Definition np_max (a : ndarray) : result float :=
  match data a with
  | [] => Raise ValueError
  | x :: l => Ok (fold_left fmax l x)
  end.

(** Python slicing [l[lo:hi]] with step 1. *)
Definition slice_bound (len i : Z) : Z :=
  if i <? 0 then Z.max 0 (i + len) else Z.min i len.

Definition py_slice {A} (lo hi : Z) (l : list A) : list A :=
  let len := Z.of_nat (length l) in
  let lo' := slice_bound len lo in
  let hi' := slice_bound len hi in
  take (Z.to_nat (hi' - lo')) (drop (Z.to_nat lo') l).

(** Conversion of a Python integer to a float (exact below 2^53). *)
Definition float_of_Z (z : Z) : float :=
  if z <? 0 then (- of_uint63 (Uint63.of_Z (- z)))%float
  else of_uint63 (Uint63.of_Z z).

(** [np.mean(l)]: the sum divided by the count.  The sum is taken left to
    right; NumPy adds pairwise, which gives the same float whenever the
    partial sums are exact, as they are for step counts. *)
Definition np_sum (l : list float) : float :=
  fold_left (fun s x => (s + x)%float) l 0%float.

Definition np_mean (l : list float) : float :=
  (np_sum l / float_of_Z (Z.of_nat (length l)))%float.

(** Python's [max(x, 0)]: the first argument is kept unless the second is
    greater. *)
Definition py_max0 (x : float) : float :=
  if (x <? 0)%float then 0%float else x.

(** ** Gymnasium's action space

    [env.action_space.sample()] draws from the generator of the space
    [Discrete(n)], which is separate from the module [random]. *)

Class ActionSampler : Type := {
  sampler : Type;
  discrete_sample : Z -> sampler -> Z * sampler
}.

Definition sample_in_range `{ActionSampler} : Prop :=
  forall n s, 0 < n -> 0 <= fst (discrete_sample n s) < n.

(** ** warehouseRobotTrain.py *)

#[local] Set Warnings "-inexact-float".

Module Train.

Definition learning_rate_a : float := 0.9%float.
Definition discount_factor_g : float := 0.9%float.

(** The variables of [run_q] that the body of the [while] loop reads and
    writes, with the two generators. *)
Record vars {R : RandomGen} {S : ActionSampler} : Type := mk_vars {
  env : WarehouseRobotEnv.t;
  q : ndarray;
  state : list Z;
  terminated : bool;
  step_count : Z;
  steps_per_episode : list float;
  gen : rng;
  space : sampler
}.

(** What [run_q] leaves behind: the step counts, the plotted series and,
    when training, the table written to the file. *)
Record report : Type := mk_report {
  steps : list float;
  sum_steps : list float;
  saved : option ndarray
}.

(** Lines 96-99: the assignment to [q[q_state_action_idx]]. *)
Definition q_update (q : ndarray) (q_state_action_idx : list Z)
    (reward : Z) (q_new_state_idx : list Z) : result ndarray :=
  old ← getitem_scalar q q_state_action_idx;
  row ← getitem q q_new_state_idx;
  best ← np_max row;
  setitem q q_state_action_idx
    (old + learning_rate_a *
       (float_of_Z reward + discount_factor_g * best - old))%float.

(** Line 111. *)
Definition epsilon_decay (episodes : Z) (epsilon : float) : float :=
  py_max0 (epsilon - 1 / float_of_Z episodes)%float.

(** Lines 120-122: the series handed to the plot. *)
Definition window (t : Z) (steps_per_episode : list float) : list float :=
  py_slice (Z.max 0 (t - 100)) (t + 1) steps_per_episode.

Definition moving_average (episodes : nat) (steps_per_episode : list float)
  : list float :=
  map (fun t => np_mean (window (Z.of_nat t) steps_per_episode))
      (seq 0 episodes).

Section WithGenerators.
Context {R : RandomGen} {S : ActionSampler}.

(** Lines 76-83.  [random.random()] is drawn only when training. *)
Definition select_action (is_training : bool) (epsilon : float)
    (q : ndarray) (state : list Z) (g : rng) (sp : sampler)
  : result (Z * rng * sampler) :=
  let '(explore, g) :=
    if is_training
    then let '(u, g') := rng_random g in ((u <? epsilon)%float, g')
    else (false, g) in
  if explore then
    let '(action, sp') := discrete_sample 4 sp in Ok (action, g, sp')
  else
    let q_state_idx := state in
    row ← getitem q q_state_idx;
    action ← np_argmax row;
    Ok (action, g, sp).

(** Lines 76-108: one pass through the body of the [while] loop of
    episode [i].  The index [i] comes from [range(episodes)] and the array
    of step counts has [episodes] entries, so the assignment at [i] is
    always in range. *)
Definition loop_body (is_training : bool) (epsilon : float) (i : nat)
    (v : vars) : result vars :=
  '(action, g, sp) ←
    select_action is_training epsilon (q v) (state v) (gen v) (space v);
  '(r, env') ← WarehouseRobotEnv.step action (env v);
  let new_state := WarehouseRobotEnv.obs r in
  let q_state_action_idx := state v ++ [action] in
  let q_new_state_idx := new_state in
  q' ← (if is_training
        then q_update (q v) q_state_action_idx
               (WarehouseRobotEnv.reward r) q_new_state_idx
        else Ok (q v));
  let step_count := step_count v + 1 in
  let '(steps, step_count) :=
    if WarehouseRobotEnv.terminated r
    then (<[i := float_of_Z step_count]> (steps_per_episode v), 0)
    else (steps_per_episode v, step_count) in
  Ok (mk_vars _ _ env' q' new_state (WarehouseRobotEnv.terminated r)
        step_count steps g sp).

(** The [while (not terminated)] loop.  It need not end (a greedy policy
    can walk into a wall for ever), so it runs on fuel: [None] is a loop
    still running when the fuel is spent. *)
Fixpoint while_loop (fuel : nat) (is_training : bool) (epsilon : float)
    (i : nat) (v : vars) : option (result vars) :=
  if terminated v then Some (Ok v)
  else
    match fuel with
    | O => None
    | Datatypes.S fuel' =>
        match loop_body is_training epsilon i v with
        | Ok v' => while_loop fuel' is_training epsilon i v'
        | Raise e => Some (Raise e)
        end
    end.

(** Lines 59-111: episode [i], from the reset to the decay of epsilon. *)
Definition episode (fuel : nat) (is_training : bool) (episodes : nat)
    (os_entropy : Z) (i : nat) (ve : vars * float)
  : option (result (vars * float)) :=
  let '(v, epsilon) := ve in
  match WarehouseRobotEnv.reset None os_entropy (env v) with
  | Raise e => Some (Raise e)
  | Ok (state0, env', g) =>
      let v0 := mk_vars _ _ env' (q v) state0 false (step_count v)
                  (steps_per_episode v) g (space v) in
      match while_loop fuel is_training epsilon i v0 with
      | Some (Ok v') =>
          Some (Ok (v', epsilon_decay (Z.of_nat episodes) epsilon))
      | Some (Raise e) => Some (Raise e)
      | None => None
      end
  end.

(** The [for i in range(episodes)] loop, over the indices still to run. *)
Fixpoint episodes_loop (fuel : nat) (is_training : bool) (episodes : nat)
    (os_entropy : nat -> Z) (todo : list nat) (ve : vars * float)
  : option (result (vars * float)) :=
  match todo with
  | [] => Some (Ok ve)
  | i :: todo' =>
      match episode fuel is_training episodes (os_entropy i) i ve with
      | Some (Ok ve') =>
          episodes_loop fuel is_training episodes os_entropy todo' ve'
      | other => other
      end
  end.

(** [gym.make('warehouse-robot-v0')]: the constructor of the environment
    builds the [WarehouseRobot], whose constructor calls [reset()].  The
    wrappers that Gymnasium puts around the environment forward [reset] and
    [step] unchanged; no step limit is registered. *)
Definition make (grid_rows grid_cols : Z) (os_entropy : Z)
  : result (WarehouseRobotEnv.t * rng) :=
  '(w, g) ← WarehouseRobot.reset None os_entropy
              (WarehouseRobot.mk grid_rows grid_cols (0, 0) (0, 0) None);
  Ok (WarehouseRobotEnv.mk grid_rows grid_cols w, g).

(** Lines 39-44: a fresh table when training, otherwise the array read
    from the file, as it is. *)
Definition initial_q (is_training : bool) (e : WarehouseRobotEnv.t)
    (pickled : ndarray) : ndarray :=
  if is_training
  then np_zeros [WarehouseRobotEnv.grid_rows e;
                 WarehouseRobotEnv.grid_cols e;
                 WarehouseRobotEnv.grid_rows e;
                 WarehouseRobotEnv.grid_cols e; 4]
  else pickled.

(** [run_q(episodes, is_training)] on a grid of the given size (the
    script takes the defaults, 4 by 5).  [entropy0] seeds the reset of
    the constructor and [os_entropy i] the reset of episode [i];
    [pickled] is the array stored in the solution file and [sp] the
    generator of the action space. *)
Definition run_q (grid_rows grid_cols : Z) (fuel : nat)
    (entropy0 : Z) (os_entropy : nat -> Z) (pickled : ndarray)
    (sp : sampler) (episodes : nat) (is_training : bool)
  : option (result report) :=
  match make grid_rows grid_cols entropy0 with
  | Raise e => Some (Raise e)
  | Ok (e, g) =>
      let q0 := initial_q is_training e pickled in
      let epsilon := 1%float in
      let steps0 := replicate episodes 0%float in
      let v := mk_vars _ _ e q0 [] false 0 steps0 g sp in
      match episodes_loop fuel is_training episodes os_entropy
              (seq 0 episodes) (v, epsilon) with
      | Some (Ok (v', _)) =>
          Some (Ok (mk_report (steps_per_episode v')
                      (moving_average episodes (steps_per_episode v'))
                      (if is_training then Some (q v') else None)))
      | Some (Raise e) => Some (Raise e)
      | None => None
      end
  end.
End WithGenerators.

End Train.

(** ** Concrete generators, to run the model *)

Definition lcg_next (g : Z) : Z := (g * 1103515245 + 12345) mod 2147483648.

Definition lcg : RandomGen := {|
  rng := Z;
  rng_of_int k := k mod 2147483648;
  rng_randbelow n g := (lcg_next g mod n, lcg_next g);
  rng_random g :=
    (if Z.even (lcg_next g / 65536) then 0.25%float else 0.75%float,
     lcg_next g)
|}.

Definition lcg_sampler : ActionSampler := {|
  sampler := Z;
  discrete_sample n s := (lcg_next s mod n, lcg_next s)
|}.

(** A table over two states and four actions, with a tie in its first row. *)
Definition tied_table : ndarray :=
  mk_ndarray [2; 4]
    [0.5%float; 0.75%float; 0.75%float; 0.25%float;
     0%float; 0%float; 0%float; 0%float].

(** Epsilon after [k] episodes of a run of [episodes] episodes: line 52
    followed by [k] passes through line 111. *)
Definition epsilon_after (episodes : nat) (k : nat) : float :=
  Nat.iter k (Train.epsilon_decay (Z.of_nat episodes)) 1%float.

(** Step counts of a run of 101 episodes: 103 steps, then 2 steps a hundred
    times. *)
Definition steps_101 : list float :=
  float_of_Z 103 :: replicate 100 (float_of_Z 2).

(** A table learnt on a grid of 5 rows and 6 columns, of shape
    (5, 6, 5, 6, 4): in each state the action that leads to the goal, DOWN
    while the robot is above the goal's row and then RIGHT, has value 1 and
    the others 0. *)
Definition table_5x6_value (i : Z) : float :=
  let a := i mod 4 in
  let gc := (i / 4) mod 6 in
  let gr := (i / 24) mod 5 in
  let c := (i / 120) mod 6 in
  let r := i / 720 in
  if r <? gr then (if a =? 1 then 1%float else 0%float)
  else if c <? gc then (if a =? 2 then 1%float else 0%float)
  else 0%float.

Definition table_5x6 : ndarray :=
  mk_ndarray [5; 6; 5; 6; 4]
    (map (fun i => table_5x6_value (Z.of_nat i)) (seq 0 3600)).

(** ** Specification vocabulary *)

(** A position lies on a grid of [R] rows and [C] columns. *)
Definition in_grid (R C : Z) (p : Z * Z) : Prop :=
  0 <= p.1 <= R - 1 /\ 0 <= p.2 <= C - 1.

(** The cell one step away in the direction of an action. *)
Definition neighbour (a : RobotAction) (p : Z * Z) : Z * Z :=
  match a with
  | LEFT => (p.1, p.2 - 1)
  | DOWN => (p.1 + 1, p.2)
  | RIGHT => (p.1, p.2 + 1)
  | UP => (p.1 - 1, p.2)
  end.

(** The goal of a [reset], when it returns. *)
Definition goal_of `{RandomGen} (m : result (WarehouseRobot.t * rng))
  : result (Z * Z) :=
  '(w, _) ← m; Ok (WarehouseRobot.target_pos w).

(** An index tuple of integers within the axes it names, counted from the
    front. *)
Inductive valid_index : list Z -> list Z -> Prop :=
| valid_index_nil (sh : list Z) : valid_index sh []
| valid_index_cons (d i : Z) (sh idx : list Z) :
    0 <= i < d -> valid_index sh idx -> valid_index (d :: sh) (i :: idx).

(** The one-step temporal-difference rule with the trainer's learning rate
    and discount: Q + alpha * (reward + gamma * max_next - Q). *)
Definition td_rule (old : float) (reward : Z) (max_next : float) : float :=
  (old + 0.9 * (float_of_Z reward + 0.9 * max_next - old))%float.

(** A comparison result that means "less than or equal". *)
Definition le_cmp (c : comparison) : bool :=
  match c with
  | Gt => false
  | _ => true
  end.

(** No element is a NaN. *)
Definition no_nan (l : list float) : Prop :=
  Forall (fun x => is_nan x = false) l.

(** [a] is the first index of a greatest element of [l]: every element is
    [<=] the one at [a], and every earlier element is [<] it. *)
Definition first_argmax (l : list float) (a : Z) : Prop :=
  exists x,
    0 <= a /\ l !! Z.to_nat a = Some x /\
    (forall (j : nat) y, l !! j = Some y -> (y <=? x)%float = true) /\
    (forall (j : nat) y,
        Z.of_nat j < a -> l !! j = Some y -> (y <? x)%float = true).

(** [x] is a greatest element of [l]. *)
Definition is_maximum (l : list float) (x : float) : Prop :=
  x ∈ l /\ forall y, y ∈ l -> (y <=? x)%float = true.

(** ** Vocabulary for the properties beyond the claims *)



(** An environment on a grid of [R] by [C] as the constructor and [reset]
    leave it: sizes recorded twice and equal, robot on the grid, goal off
    row 0 and column 0. *)
Definition env_ok (R C : Z) (e : WarehouseRobotEnv.t) : Prop :=
  2 <= R /\ 2 <= C /\
  WarehouseRobotEnv.grid_rows e = R /\
  WarehouseRobotEnv.grid_cols e = C /\
  WarehouseRobot.grid_rows (WarehouseRobotEnv.warehouse_robot e) = R /\
  WarehouseRobot.grid_cols (WarehouseRobotEnv.warehouse_robot e) = C /\
  in_grid R C (WarehouseRobot.robot_pos (WarehouseRobotEnv.warehouse_robot e)) /\
  1 <= (WarehouseRobot.target_pos (WarehouseRobotEnv.warehouse_robot e)).1
    <= R - 1 /\
  1 <= (WarehouseRobot.target_pos (WarehouseRobotEnv.warehouse_robot e)).2
    <= C - 1.

(** The number of moves between two cells. *)
Definition manhattan (p t : Z * Z) : Z :=
  Z.abs (p.1 - t.1) + Z.abs (p.2 - t.2).

(** The robot after a sequence of actions. *)
Definition run_actions (acts : list RobotAction) (w : WarehouseRobot.t)
  : WarehouseRobot.t :=
  foldl (fun w a => (WarehouseRobot.perform_action a w).2) w acts.

(** The variables of the training loop on a grid of [R] by [C]: the
    environment as above, the state the observation of its robot, and a
    well-formed table of shape (R, C, R, C, 4). *)
Definition train_ok {R0 : RandomGen} {S0 : ActionSampler} (R C : Z)
    (v : Train.vars) : Prop :=
  env_ok R C (Train.env v) /\
  Train.state v
  = WarehouseRobotEnv.observation
      (WarehouseRobotEnv.warehouse_robot (Train.env v)) /\
  ndarray_wf (Train.q v) /\
  shape (Train.q v) = [R; C; R; C; 4].

(** A shortest sequence of actions from cell [p] to cell [t]: along the
    rows first, then along the columns. *)
Definition path_to (p t : Z * Z) : list RobotAction :=
  (if p.1 <=? t.1 then replicate (Z.to_nat (t.1 - p.1)) DOWN
   else replicate (Z.to_nat (p.1 - t.1)) UP)
  ++ (if p.2 <=? t.2 then replicate (Z.to_nat (t.2 - p.2)) RIGHT
      else replicate (Z.to_nat (p.2 - t.2)) LEFT).

(** A loop on fuel did not raise: it is still running when the fuel is
    spent, or it returned a value that satisfies [P]. *)
Definition no_raise {A} (P : A -> Prop) (o : option (result A)) : Prop :=
  match o with
  | Some (Ok a) => P a
  | Some (Raise _) => False
  | None => True
  end.

(** What the loop over the episodes keeps between episodes: the
    environment on its grid and a well-formed table of the grid's shape. *)
Definition table_ok {R0 : RandomGen} {S0 : ActionSampler} (R C : Z)
    (v : Train.vars) : Prop :=
  env_ok R C (Train.env v) /\
  ndarray_wf (Train.q v) /\
  shape (Train.q v) = [R; C; R; C; 4].

(** ** The console part of [WarehouseRobot.render] *)

From Stdlib Require Strings.String.
Import String.StringSyntax.
Delimit Scope string_scope with string.

(** The tiles of the grid; [__str__] is the first letter of the name. *)
Inductive GridTile : Type :=
| _FLOOR
| ROBOT
| TARGET.

#[global] Instance GridTile_eq_dec : EqDecision GridTile.
Proof. solve_decision. Defined.

Definition GridTile_name (t : GridTile) : String.string :=
  match t with
  | _FLOOR => "_FLOOR"%string
  | ROBOT => "ROBOT"%string
  | TARGET => "TARGET"%string
  end.

Definition GridTile_str (t : GridTile) : String.string :=
  String.substring 0 1 (GridTile_name t).

(** [range(n)]. *)
Definition py_range (n : Z) : list Z := map Z.of_nat (seq 0 (Z.to_nat n)).

(** The tile printed for cell [(r, c)]: the robot is tested first. *)
Definition tile_at (self : WarehouseRobot.t) (r c : Z) : GridTile :=
  if bool_decide ((r, c) = WarehouseRobot.robot_pos self) then ROBOT
  else if bool_decide ((r, c) = WarehouseRobot.target_pos self) then TARGET
  else _FLOOR.

(** The tiles printed, row by row, and the text written to the console:
    each tile followed by a space, a new line after each row and one more
    at the end. *)
Definition render_tiles (self : WarehouseRobot.t) : list (list GridTile) :=
  map (fun r =>
         map (fun c => tile_at self r c)
             (py_range (WarehouseRobot.grid_cols self)))
      (py_range (WarehouseRobot.grid_rows self)).

Definition newline : String.string :=
  String.String (Ascii.ascii_of_nat 10) String.EmptyString.

Definition render_console (self : WarehouseRobot.t) : String.string :=
  String.append
    (String.concat String.EmptyString
       (map (fun row =>
               String.append
                 (String.concat String.EmptyString
                    (map (fun t => String.append (GridTile_str t) " "%string)
                         row))
                 newline)
            (render_tiles self)))
    newline.

(** How many times a tile occurs. *)
Definition occurrences (t : GridTile) (l : list GridTile) : nat :=
  length (filter (fun x => x = t) l).

(** * Properties of the grid world and of the environment *)

Lemma lcg_randbelow_in_range : @randbelow_in_range lcg.
Proof.
  intros n g Hn. cbn. apply Z.mod_pos_bound. exact Hn.
Qed.

Lemma lcg_random_in_unit : @random_in_unit lcg.
Proof.
  intros g. cbn. destruct (Z.even _); reflexivity.
Qed.

Lemma lcg_sample_in_range : @sample_in_range lcg_sampler.
Proof.
  intros n s Hn. cbn. apply Z.mod_pos_bound. exact Hn.
Qed.

Lemma perform_action_fields (a : RobotAction) (w : WarehouseRobot.t) :
  let w' := (WarehouseRobot.perform_action a w).2 in
  WarehouseRobot.grid_rows w' = WarehouseRobot.grid_rows w /\
  WarehouseRobot.grid_cols w' = WarehouseRobot.grid_cols w /\
  WarehouseRobot.target_pos w' = WarehouseRobot.target_pos w /\
  WarehouseRobot.last_action w' = Some a.
Proof.
  destruct w as [R C [r c] tp la].
  destruct a; cbn; repeat case_match; cbn; auto.
Qed.

Lemma perform_action_flag (a : RobotAction) (w : WarehouseRobot.t) :
  (WarehouseRobot.perform_action a w).1 =
  bool_decide (WarehouseRobot.robot_pos (WarehouseRobot.perform_action a w).2
               = WarehouseRobot.target_pos w).
Proof.
  destruct w as [R C [r c] tp la].
  destruct a; cbn; repeat case_match; cbn; reflexivity.
Qed.

(** C1. [perform_action] returns true exactly when the position it leaves
    the robot at is the goal; for each of the four actions [step] returns,
    its [terminated] is that flag, its reward is 1 when the flag is set and
    0 otherwise, and its [truncated] is false. *)
Theorem C1_goal_flag_reward_terminated :
  (forall (a : RobotAction) (w : WarehouseRobot.t),
      (WarehouseRobot.perform_action a w).1 = true <->
      WarehouseRobot.robot_pos (WarehouseRobot.perform_action a w).2
      = WarehouseRobot.target_pos w) /\
  (forall (a : RobotAction) (e : WarehouseRobotEnv.t),
      exists r e',
        WarehouseRobotEnv.step (RobotAction_value a) e = Ok (r, e') /\
        WarehouseRobotEnv.terminated r =
          (WarehouseRobot.perform_action a
             (WarehouseRobotEnv.warehouse_robot e)).1 /\
        (WarehouseRobotEnv.terminated r = true <->
         WarehouseRobot.robot_pos (WarehouseRobotEnv.warehouse_robot e')
         = WarehouseRobot.target_pos (WarehouseRobotEnv.warehouse_robot e)) /\
        WarehouseRobotEnv.reward r =
          (if WarehouseRobotEnv.terminated r then 1 else 0) /\
        WarehouseRobotEnv.truncated r = false).
Proof.
  split.
  - intros a w. rewrite perform_action_flag. apply bool_decide_eq_true.
  - intros a e.
    pose proof (perform_action_flag a (WarehouseRobotEnv.warehouse_robot e))
      as Hflag.
    unfold WarehouseRobotEnv.step.
    assert (Hcall : RobotAction_call (RobotAction_value a) = Ok a)
      by (destruct a; reflexivity).
    rewrite Hcall. cbn.
    destruct (WarehouseRobot.perform_action a
                (WarehouseRobotEnv.warehouse_robot e)) as [reached w'] eqn:Hpa.
    cbn in Hflag.
    destruct reached; cbn; eexists; eexists; (split; [reflexivity|]); cbn;
      repeat split; auto; try discriminate.
    + intros _. symmetry in Hflag. apply bool_decide_eq_true in Hflag. exact Hflag.
    + intros Heq. symmetry in Hflag. apply bool_decide_eq_false in Hflag.
      contradiction.
Qed.

(** C2. On a grid of at least 2 by 2, from any position on the grid, each
    action leaves the robot on the grid: it moves to the neighbouring cell
    when that cell is on the grid and stays where it is otherwise, without
    raising. *)
Theorem C2_boundary_clamp (R C : Z) (a : RobotAction) (w : WarehouseRobot.t) :
  2 <= R -> 2 <= C ->
  WarehouseRobot.grid_rows w = R ->
  WarehouseRobot.grid_cols w = C ->
  in_grid R C (WarehouseRobot.robot_pos w) ->
  let p := WarehouseRobot.robot_pos w in
  let p' := WarehouseRobot.robot_pos (WarehouseRobot.perform_action a w).2 in
  in_grid R C p' /\
  (in_grid R C (neighbour a p) -> p' = neighbour a p) /\
  (~ in_grid R C (neighbour a p) -> p' = p).
Proof.
  intros HR HC Hrows Hcols Hin.
  destruct w as [R' C' [r c] tp la]. cbn in *. subst R' C'.
  unfold in_grid in *. cbn in *.
  destruct a; cbn; case_match; cbn;
    repeat match goal with
           | H : (_ <? _) = true |- _ => apply Z.ltb_lt in H
           | H : (_ <? _) = false |- _ => apply Z.ltb_ge in H
           end;
    (split; [lia|]); split; intros; try reflexivity; try lia;
    try (f_equal; lia).
Qed.

Lemma C2_boundary_clamp_witness :
  let w := WarehouseRobot.mk 4 5 (0, 4) (2, 3) None in
  in_grid 4 5 (WarehouseRobot.robot_pos
                 (WarehouseRobot.perform_action RIGHT w).2) /\
  WarehouseRobot.robot_pos (WarehouseRobot.perform_action RIGHT w).2 = (0, 4).
Proof.
  cbn zeta.
  pose proof (C2_boundary_clamp 4 5 RIGHT
                (WarehouseRobot.mk 4 5 (0, 4) (2, 3) None)) as Hc.
  cbn zeta in Hc.
  destruct Hc as (Hin & _ & Hstay);
    [lia | lia | reflexivity | reflexivity | unfold in_grid; cbn; lia |].
  split; [exact Hin|].
  apply Hstay. unfold in_grid. cbn. lia.
Defined.

(** C10. [perform_action] leaves the goal, the row count and the column
    count as they were; it changes the robot position and records the
    action. *)
Theorem C10_perform_action_frame (a : RobotAction) (w : WarehouseRobot.t) :
  WarehouseRobot.target_pos (WarehouseRobot.perform_action a w).2
  = WarehouseRobot.target_pos w /\
  WarehouseRobot.grid_rows (WarehouseRobot.perform_action a w).2
  = WarehouseRobot.grid_rows w /\
  WarehouseRobot.grid_cols (WarehouseRobot.perform_action a w).2
  = WarehouseRobot.grid_cols w /\
  WarehouseRobot.last_action (WarehouseRobot.perform_action a w).2 = Some a.
Proof.
  pose proof (perform_action_fields a w) as H. cbn zeta in H. tauto.
Qed.


Section Reset.
Context {R : RandomGen}.
Hypothesis randbelow_ok : randbelow_in_range.

Lemma randint_in_range (a b : Z) (g : rng) :
  a <= b ->
  exists v g', randint a b g = Ok (v, g') /\ a <= v <= b.
Proof using randbelow_ok.
  intros Hab. unfold randint, randrange.
  assert (Hw : 0 < b + 1 - a) by lia.
  pose proof (randbelow_ok (b + 1 - a) g Hw) as Hr.
  apply Z.ltb_lt in Hw. rewrite Hw.
  destruct (rng_randbelow (b + 1 - a) g) as [r g'] eqn:Hdraw.
  cbn in Hr. exists (a + r), g'. split; [reflexivity | lia].
Qed.

(** C6. On a grid of at least 2 by 2, [reset], with a seed or without one,
    returns with the robot at (0,0) and the goal in rows 1..R-1 and columns
    1..C-1; so the goal is not (0,0) and has neither row 0 nor column 0. *)
Theorem C6_reset_places_goal_off_origin
    (seed : option Z) (os_entropy : Z) (w : WarehouseRobot.t) :
  2 <= WarehouseRobot.grid_rows w ->
  2 <= WarehouseRobot.grid_cols w ->
  exists w' g',
    WarehouseRobot.reset seed os_entropy w = Ok (w', g') /\
    WarehouseRobot.robot_pos w' = (0, 0) /\
    1 <= (WarehouseRobot.target_pos w').1 <= WarehouseRobot.grid_rows w - 1 /\
    1 <= (WarehouseRobot.target_pos w').2 <= WarehouseRobot.grid_cols w - 1 /\
    WarehouseRobot.target_pos w' <> (0, 0) /\
    (WarehouseRobot.target_pos w').1 <> 0 /\
    (WarehouseRobot.target_pos w').2 <> 0 /\
    WarehouseRobot.grid_rows w' = WarehouseRobot.grid_rows w /\
    WarehouseRobot.grid_cols w' = WarehouseRobot.grid_cols w.
Proof using randbelow_ok.
  intros HR HC. unfold WarehouseRobot.reset.
  destruct w as [rows cols rp tp la]. cbn in *.
  destruct (randint_in_range 1 (rows - 1) (random_seed seed os_entropy))
    as (r & g1 & Hr & Hrange_r); [lia|].
  rewrite Hr. cbn.
  destruct (randint_in_range 1 (cols - 1) g1) as (c & g2 & Hc & Hrange_c);
    [lia|].
  rewrite Hc. cbn.
  exists (WarehouseRobot.mk rows cols (0, 0) (r, c) la), g2. cbn.
  repeat split; try lia.
  intros Heq. inversion Heq. lia.
Qed.

End Reset.

Lemma C6_reset_places_goal_off_origin_witness :
  exists w' g',
    @WarehouseRobot.reset lcg (Some 0) 0
      (WarehouseRobot.mk 4 5 (3, 2) (1, 1) (Some UP)) = Ok (w', g') /\
    WarehouseRobot.robot_pos w' = (0, 0) /\
    1 <= (WarehouseRobot.target_pos w').1 <= 3 /\
    1 <= (WarehouseRobot.target_pos w').2 <= 4.
Proof.
  destruct (@C6_reset_places_goal_off_origin lcg lcg_randbelow_in_range
              (Some 0) 0 (WarehouseRobot.mk 4 5 (3, 2) (1, 1) (Some UP)))
    as (w' & g' & Hreset & Hpos & Hrow & Hcol & _); [cbn; lia | cbn; lia |].
  exists w', g'. cbn in Hrow, Hcol. auto.
Defined.

(** C7. Two calls of [reset] with the same integer seed, on objects of the
    same grid size and whatever else their state and the entropy of the
    operating system, end alike and, when they return, with the same goal. *)
Theorem C7_reset_same_seed_same_goal {R : RandomGen}
    (K : Z) (os_entropy1 os_entropy2 : Z) (w1 w2 : WarehouseRobot.t) :
  WarehouseRobot.grid_rows w1 = WarehouseRobot.grid_rows w2 ->
  WarehouseRobot.grid_cols w1 = WarehouseRobot.grid_cols w2 ->
  goal_of (WarehouseRobot.reset (Some K) os_entropy1 w1)
  = goal_of (WarehouseRobot.reset (Some K) os_entropy2 w2).
Proof.
  intros Hrows Hcols.
  destruct w1 as [rows1 cols1 rp1 tp1 la1], w2 as [rows2 cols2 rp2 tp2 la2].
  cbn in Hrows, Hcols. subst rows2 cols2.
  unfold goal_of, WarehouseRobot.reset. cbn.
  destruct (randint 1 (rows1 - 1) (rng_of_int K)) as [[r g1]|e]; cbn;
    [|reflexivity].
  destruct (randint 1 (cols1 - 1) g1) as [[c g2]|e]; cbn; reflexivity.
Qed.

Lemma C7_reset_same_seed_same_goal_witness :
  @goal_of lcg (@WarehouseRobot.reset lcg (Some 7) 11
                  (WarehouseRobot.mk 4 5 (0, 0) (1, 1) None))
  = @goal_of lcg (@WarehouseRobot.reset lcg (Some 7) 99
                    (WarehouseRobot.mk 4 5 (2, 3) (3, 4) (Some DOWN)))
  /\ @goal_of lcg (@WarehouseRobot.reset lcg (Some 7) 11
                     (WarehouseRobot.mk 4 5 (0, 0) (1, 1) None))
     = Ok (1, 2).
Proof.
  split.
  - apply (@C7_reset_same_seed_same_goal lcg 7 11 99); reflexivity.
  - vm_compute. reflexivity.
Defined.

(** * Properties of array indexing *)

Lemma size_of_nonneg (sh : list Z) :
  Forall (fun d => 0 <= d) sh -> 0 <= size_of sh.
Proof.
  induction 1 as [|d sh Hd _ IH]; cbn; [lia|].
  apply Z.mul_nonneg_nonneg; assumption.
Qed.

Lemma resolve_index_cons (d i : Z) (sh idx : list Z) (acc : Z) :
  0 <= i < d ->
  resolve_index (d :: sh) (i :: idx) acc = resolve_index sh idx (acc * d + i).
Proof.
  intros Hi. cbn [resolve_index].
  assert (Hneg : (i <? 0) = false) by (apply Z.ltb_ge; lia).
  rewrite Hneg.
  assert (Hin : (0 <=? i) && (i <? d) = true).
  { apply andb_true_intro. split; [apply Z.leb_le | apply Z.ltb_lt]; lia. }
  rewrite Hin. reflexivity.
Qed.

Lemma resolve_index_valid (sh idx : list Z) (acc : Z) :
  Forall (fun d => 0 <= d) sh ->
  valid_index sh idx ->
  exists k,
    resolve_index sh idx acc = Ok (k, drop (length idx) sh) /\
    acc * size_of sh <= k * size_of (drop (length idx) sh) /\
    (k + 1) * size_of (drop (length idx) sh) <= (acc + 1) * size_of sh.
Proof.
  intros Hsh Hv. revert acc Hsh.
  induction Hv as [sh | d i sh idx Hi Hv IH]; intros acc Hsh.
  - exists acc. cbn [resolve_index length]. rewrite drop_0.
    split; [reflexivity | split; apply Z.le_refl].
  - inversion Hsh as [|? ? Hd Hsh']; subst.
    destruct (IH (acc * d + i) Hsh') as (k & Hres & Hlo & Hhi).
    exists k. rewrite resolve_index_cons by exact Hi.
    cbn [length drop]. split; [exact Hres|].
    pose proof (size_of_nonneg sh Hsh') as Hs.
    cbn [size_of foldr]. fold (size_of sh). nia.
Qed.

Lemma resolve_index_injective (sh idx1 idx2 : list Z) (acc1 acc2 k : Z)
    (r1 r2 : list Z) :
  valid_index sh idx1 -> valid_index sh idx2 ->
  length idx1 = length idx2 ->
  resolve_index sh idx1 acc1 = Ok (k, r1) ->
  resolve_index sh idx2 acc2 = Ok (k, r2) ->
  acc1 = acc2 /\ idx1 = idx2.
Proof.
  intros Hv1. revert idx2 acc1 acc2.
  induction Hv1 as [sh | d i1 sh idx1 Hi1 Hv1 IH];
    intros idx2 acc1 acc2 Hv2 Hlen H1 H2.
  - destruct idx2; [|discriminate]. cbn in H1, H2.
    split; [congruence | reflexivity].
  - inversion Hv2 as [| d' i2 sh' idx2' Hi2 Hv2']; subst; [discriminate|].
    rewrite resolve_index_cons in H1 by exact Hi1.
    rewrite resolve_index_cons in H2 by exact Hi2.
    cbn in Hlen.
    destruct (IH idx2' _ _ Hv2' ltac:(lia) H1 H2) as [Hacc Hidx].
    assert (acc1 = acc2 /\ i1 = i2) as [-> ->].
    { apply (Z.div_mod_unique d); [left; lia | left; lia | lia]. }
    subst. split; reflexivity.
Qed.

(** * The order of binary64 numbers *)

Lemma SFcompare_none (x y : spec_float) :
  SFcompare x y = None <-> x = S754_nan \/ y = S754_nan.
Proof.
  destruct x as [sx|sx| |sx mx ex], y as [sy|sy| |sy my ey]; cbn;
    try destruct sx; try destruct sy; intuition congruence.
Qed.

Lemma SFcompare_refl (x : spec_float) :
  x <> S754_nan -> SFcompare x x = Some Eq.
Proof.
  destruct x as [sx|sx| |sx mx ex]; cbn; try destruct sx; try congruence;
    intros _; change (Pos.compare_cont Eq) with Pos.compare;
    rewrite Z.compare_refl, Pos.compare_refl; reflexivity.
Qed.

Lemma SFcompare_antisym (x y : spec_float) :
  SFcompare y x = option_map CompOpp (SFcompare x y).
Proof.
  destruct x as [sx|sx| |sx mx ex], y as [sy|sy| |sy my ey]; cbn;
    try destruct sx; try destruct sy; cbn; try reflexivity;
    change (Pos.compare_cont Eq) with Pos.compare;
    rewrite (Z.compare_antisym ex ey), (Pos.compare_antisym mx my);
    destruct (ex ?= ey); cbn; try reflexivity;
    destruct (mx ?= my)%positive; reflexivity.
Qed.

Ltac compare_cases :=
  repeat match goal with
  | |- context [(?a ?= ?b)%Z] =>
      destruct (Z.compare_spec a b); subst; cbn [le_cmp CompOpp]
  | |- context [(?a ?= ?b)%positive] =>
      destruct (Pos.compare_spec a b); subst; cbn [le_cmp CompOpp]
  end.

Lemma SFcompare_trans (x y z : spec_float) (c1 c2 : comparison) :
  SFcompare x y = Some c1 -> SFcompare y z = Some c2 ->
  le_cmp c1 = true -> le_cmp c2 = true ->
  SFcompare x z = Some (match c1, c2 with Eq, Eq => Eq | _, _ => Lt end).
Proof.
  destruct x as [sx|sx| |sx mx ex], y as [sy|sy| |sy my ey],
           z as [sz|sz| |sz mz ez]; cbn;
    try destruct sx; try destruct sy; try destruct sz; cbn;
    intros H1 H2; try discriminate;
    injection H1 as <-; injection H2 as <-;
    change (Pos.compare_cont Eq) with Pos.compare;
    compare_cases; intros; try discriminate; try reflexivity; lia.
Qed.

Lemma is_nan_false (x : float) :
  is_nan x = false <-> Prim2SF x <> S754_nan.
Proof.
  unfold is_nan. rewrite FloatAxioms.eqb_spec. unfold SFeqb. split.
  - intros Hn Heq. rewrite Heq in Hn. cbn in Hn. discriminate.
  - intros Hx. rewrite (SFcompare_refl _ Hx). reflexivity.
Qed.

Lemma leb_refl (x : float) : is_nan x = false -> (x <=? x)%float = true.
Proof.
  intros Hx. apply is_nan_false in Hx.
  rewrite FloatAxioms.leb_spec. unfold SFleb. rewrite (SFcompare_refl _ Hx). reflexivity.
Qed.

Lemma leb_not_nan (x y : float) :
  (x <=? y)%float = true -> is_nan x = false /\ is_nan y = false.
Proof.
  rewrite FloatAxioms.leb_spec. unfold SFleb. intros H.
  split; apply is_nan_false; intros Hn; rewrite Hn in H;
    [|destruct (Prim2SF x) as [[]|[]| |[]]]; cbn in H; discriminate.
Qed.

Lemma leb_total (x y : float) :
  is_nan x = false -> is_nan y = false ->
  (x <=? y)%float = negb (y <? x)%float.
Proof.
  intros Hx Hy. apply is_nan_false in Hx, Hy.
  rewrite FloatAxioms.leb_spec, FloatAxioms.ltb_spec. unfold SFleb, SFltb.
  rewrite (SFcompare_antisym (Prim2SF x) (Prim2SF y)).
  destruct (SFcompare (Prim2SF x) (Prim2SF y)) as [[]|] eqn:Hc;
    try reflexivity.
  apply SFcompare_none in Hc. tauto.
Qed.

Lemma ltb_leb (x y : float) :
  (x <? y)%float = true -> (x <=? y)%float = true.
Proof.
  rewrite FloatAxioms.leb_spec, FloatAxioms.ltb_spec. unfold SFleb, SFltb.
  destruct (SFcompare _ _) as [[]|]; congruence.
Qed.

Lemma leb_trans (x y z : float) :
  (x <=? y)%float = true -> (y <=? z)%float = true -> (x <=? z)%float = true.
Proof.
  rewrite !FloatAxioms.leb_spec. unfold SFleb.
  destruct (SFcompare (Prim2SF x) (Prim2SF y)) as [c1|] eqn:H1;
    [|discriminate].
  destruct (SFcompare (Prim2SF y) (Prim2SF z)) as [c2|] eqn:H2;
    [|destruct c1; discriminate].
  intros L1 L2.
  rewrite (SFcompare_trans _ _ _ c1 c2 H1 H2);
    destruct c1, c2; try discriminate; reflexivity.
Qed.

Lemma leb_ltb_trans (x y z : float) :
  (x <=? y)%float = true -> (y <? z)%float = true -> (x <? z)%float = true.
Proof.
  rewrite FloatAxioms.leb_spec, !FloatAxioms.ltb_spec. unfold SFleb, SFltb.
  destruct (SFcompare (Prim2SF x) (Prim2SF y)) as [c1|] eqn:H1;
    [|discriminate].
  destruct (SFcompare (Prim2SF y) (Prim2SF z)) as [c2|] eqn:H2;
    [|destruct c1; discriminate].
  intros L1 L2.
  rewrite (SFcompare_trans _ _ _ c1 c2 H1 H2);
    destruct c1, c2; try discriminate; reflexivity.
Qed.

(** * [np.max] and [np.argmax] *)

Lemma fmax_cases (a b : float) :
  is_nan a = false -> is_nan b = false ->
  (fmax a b = a \/ fmax a b = b) /\
  (a <=? fmax a b)%float = true /\ (b <=? fmax a b)%float = true.
Proof.
  intros Ha Hb. unfold fmax. rewrite Ha.
  destruct (b <? a)%float eqn:Hlt.
  - split; [left; reflexivity|]. split; [apply leb_refl, Ha|].
    apply ltb_leb, Hlt.
  - split; [right; reflexivity|]. split; [|apply leb_refl, Hb].
    rewrite (leb_total a b Ha Hb), Hlt. reflexivity.
Qed.

Lemma fold_fmax_maximum (l : list float) (acc : float) :
  is_nan acc = false -> no_nan l ->
  is_maximum (acc :: l) (fold_left fmax l acc).
Proof.
  revert acc. induction l as [|y l IH]; intros acc Hacc Hl; cbn.
  - split; [apply list_elem_of_here|].
    intros z Hz. apply list_elem_of_singleton in Hz. subst z.
    apply leb_refl, Hacc.
  - inversion Hl as [|? ? Hy Hl']; subst.
    destruct (fmax_cases acc y Hacc Hy) as (Hsel & Hle_acc & Hle_y).
    assert (Hnan : is_nan (fmax acc y) = false)
      by (destruct Hsel as [-> | ->]; assumption).
    destruct (IH (fmax acc y) Hnan Hl') as [Hin Hmax].
    assert (Hself : (fmax acc y <=? fold_left fmax l (fmax acc y))%float
                    = true) by (apply Hmax, list_elem_of_here).
    split.
    + apply elem_of_cons in Hin as [Heq | Hin].
      * rewrite Heq. destruct Hsel as [-> | ->];
          [apply list_elem_of_here
          | apply list_elem_of_further, list_elem_of_here].
      * do 2 apply list_elem_of_further. exact Hin.
    + intros z Hz.
      apply elem_of_cons in Hz as [-> | Hz];
        [exact (leb_trans _ _ _ Hle_acc Hself)|].
      apply elem_of_cons in Hz as [-> | Hz];
        [exact (leb_trans _ _ _ Hle_y Hself)|].
      apply Hmax, list_elem_of_further, Hz.
Qed.

Lemma np_max_maximum (a : ndarray) :
  data a <> [] -> no_nan (data a) ->
  exists best, np_max a = Ok best /\ is_maximum (data a) best.
Proof.
  unfold np_max. destruct (data a) as [|x l]; [congruence|].
  intros _ Hl. inversion Hl; subst.
  eexists. split; [reflexivity|]. apply fold_fmax_maximum; assumption.
Qed.

Lemma argmax_from_first (pre l : list float) (mp : float) (max_ind : Z) :
  no_nan (pre ++ l) ->
  0 <= max_ind ->
  pre !! Z.to_nat max_ind = Some mp ->
  (forall (j : nat) y, pre !! j = Some y -> (y <=? mp)%float = true) ->
  (forall (j : nat) y,
      Z.of_nat j < max_ind -> pre !! j = Some y -> (y <? mp)%float = true) ->
  first_argmax (pre ++ l)
    (argmax_from mp max_ind (Z.of_nat (length pre)) l).
Proof.
  revert pre mp max_ind.
  induction l as [|x l IH]; intros pre mp max_ind Hnan Hind Hmp Hle Hlt.
  - cbn. rewrite app_nil_r. exists mp. auto.
  - cbn [argmax_from].
    assert (Hmp_nan : is_nan mp = false).
    { unfold no_nan in Hnan. rewrite Forall_forall in Hnan. apply Hnan.
      apply elem_of_app. left.
      eapply list_elem_of_lookup_2, Hmp. }
    assert (Hx_nan : is_nan x = false).
    { unfold no_nan in Hnan. rewrite Forall_forall in Hnan. apply Hnan.
      apply elem_of_app. right. apply list_elem_of_here. }
    rewrite Hmp_nan.
    assert (Hpre : pre ++ x :: l = (pre ++ [x]) ++ l)
      by (rewrite <- app_assoc; reflexivity).
    assert (Hlen : Z.of_nat (length pre) + 1
                   = Z.of_nat (length (pre ++ [x])))
      by (rewrite length_app; cbn; lia).
    rewrite Hpre, Hlen.
    destruct (x <=? mp)%float eqn:Hxmp; cbn [negb].
    + apply IH; [rewrite <- Hpre; exact Hnan | exact Hind | | |].
      * rewrite lookup_app_l; [exact Hmp|].
        apply lookup_lt_Some in Hmp. exact Hmp.
      * intros j y Hj. apply lookup_app_Some in Hj as [Hj | [_ Hj]];
          [eapply Hle, Hj|].
        apply list_lookup_singleton_Some in Hj as [_ <-]. exact Hxmp.
      * intros j y Hjlt Hj. apply lookup_app_Some in Hj as [Hj | [Hge _]];
          [eapply Hlt; eassumption|].
        apply lookup_lt_Some in Hmp. lia.
    + assert (Hgt : (mp <? x)%float = true).
      { rewrite (leb_total x mp Hx_nan Hmp_nan) in Hxmp.
        apply negb_false_iff in Hxmp. exact Hxmp. }
      apply IH; [rewrite <- Hpre; exact Hnan | lia | | |].
      * rewrite Nat2Z.id. apply list_lookup_middle. reflexivity.
      * intros j y Hj. apply lookup_app_Some in Hj as [Hj | [_ Hj]].
        -- apply ltb_leb. eapply leb_ltb_trans; [eapply Hle, Hj | exact Hgt].
        -- apply list_lookup_singleton_Some in Hj as [_ <-].
           apply leb_refl, Hx_nan.
      * intros j y Hjlt Hj. apply lookup_app_Some in Hj as [Hj | [Hge _]];
          [|lia].
        eapply leb_ltb_trans; [eapply Hle, Hj | exact Hgt].
Qed.

Lemma np_argmax_first (a : ndarray) :
  data a <> [] -> no_nan (data a) ->
  exists i, np_argmax a = Ok i /\ first_argmax (data a) i.
Proof.
  unfold np_argmax. destruct (data a) as [|x l]; [congruence|].
  intros _ Hl. eexists. split; [reflexivity|].
  inversion Hl as [|? ? Hx Hl']; subst.
  apply (argmax_from_first [x] l x 0); cbn.
  - exact Hl.
  - lia.
  - reflexivity.
  - intros j y Hj. apply list_lookup_singleton_Some in Hj as [_ <-].
    apply leb_refl, Hx.
  - intros j y Hj. lia.
Qed.

(** * Reading and writing the table *)

Lemma resolve_index_nonneg (sh idx : list Z) (acc k : Z) (rest : list Z) :
  valid_index sh idx -> 0 <= acc ->
  resolve_index sh idx acc = Ok (k, rest) -> 0 <= k.
Proof.
  intros Hv. revert acc.
  induction Hv as [sh | d i sh idx Hi Hv IH]; intros acc Hacc Hres.
  - cbn in Hres. congruence.
  - rewrite resolve_index_cons in Hres by exact Hi.
    apply (IH (acc * d + i)); [nia | exact Hres].
Qed.

Lemma resolve_index_app (sh idx1 idx2 : list Z) (acc : Z) :
  resolve_index sh (idx1 ++ idx2) acc
  = '(k, rest) ← resolve_index sh idx1 acc; resolve_index rest idx2 k.
Proof.
  revert sh acc. induction idx1 as [|i idx1 IH]; intros sh acc.
  - reflexivity.
  - cbn [app resolve_index]. destruct sh as [|d sh]; [reflexivity|].
    destruct ((0 <=? _) && _); [apply IH | reflexivity].
Qed.

Lemma getitem_valid (q : ndarray) (idx : list Z) :
  ndarray_wf q -> valid_index (shape q) idx ->
  exists k row,
    resolve_index (shape q) idx 0 = Ok (k, drop (length idx) (shape q)) /\
    0 <= k /\
    getitem q idx = Ok row /\
    shape row = drop (length idx) (shape q) /\
    data row = take (Z.to_nat (size_of (shape row)))
                 (drop (Z.to_nat k * Z.to_nat (size_of (shape row)))%nat
                    (data q)) /\
    Z.of_nat (length (data row)) = size_of (shape row).
Proof.
  intros [Hsh Hlen] Hv.
  destruct (resolve_index_valid (shape q) idx 0 Hsh Hv) as (k & Hres & Hlo & Hhi).
  pose proof (resolve_index_nonneg _ _ 0 _ _ Hv (Z.le_refl 0) Hres) as Hk.
  assert (Hrest : 0 <= size_of (drop (length idx) (shape q))).
  { apply size_of_nonneg, Forall_drop, Hsh. }
  exists k. eexists. unfold getitem. rewrite Hres. cbn.
  repeat split; try reflexivity; try assumption.
  cbn [data shape]. rewrite length_take, length_drop. nia.
Qed.

Lemma getitem_scalar_valid (q : ndarray) (idx : list Z) :
  ndarray_wf q -> valid_index (shape q) idx ->
  length idx = length (shape q) ->
  exists k x,
    resolve_index (shape q) idx 0 = Ok (k, []) /\
    0 <= k /\
    data q !! Z.to_nat k = Some x /\
    getitem_scalar q idx = Ok x.
Proof.
  intros [Hsh Hlen] Hv Hfull.
  destruct (resolve_index_valid (shape q) idx 0 Hsh Hv) as (k & Hres & Hlo & Hhi).
  pose proof (resolve_index_nonneg _ _ 0 _ _ Hv (Z.le_refl 0) Hres) as Hk.
  rewrite Hfull, drop_all in Hres, Hlo, Hhi. cbn in Hlo, Hhi.
  assert (Hlt : (Z.to_nat k < length (data q))%nat) by lia.
  apply lookup_lt_is_Some_2 in Hlt as [x Hx].
  exists k, x. unfold getitem_scalar. rewrite Hres. cbn. rewrite Hx. auto.
Qed.

Lemma setitem_scalar (q : ndarray) (idx : list Z) (k : Z) (x : float) :
  resolve_index (shape q) idx 0 = Ok (k, []) ->
  setitem q idx x = Ok (mk_ndarray (shape q) (<[Z.to_nat k := x]> (data q))).
Proof.
  intros Hres. unfold setitem. rewrite Hres. cbn.
  rewrite Nat.mul_1_r. reflexivity.
Qed.

Lemma getitem_row_entries (q row : ndarray) (idx : list Z) (n a : Z) :
  ndarray_wf q -> valid_index (shape q) idx ->
  getitem q idx = Ok row -> shape row = [n] -> 0 <= a < n ->
  exists x,
    data row !! Z.to_nat a = Some x /\
    getitem_scalar q (idx ++ [a]) = Ok x.
Proof.
  intros Hwf Hv Hget Hshape Ha.
  destruct (getitem_valid q idx Hwf Hv)
    as (k & row' & Hres & Hk & Hget' & Hsh' & Hdata & Hlen).
  rewrite Hget in Hget'. injection Hget' as <-.
  rewrite Hshape in Hdata, Hlen, Hsh'. cbn in Hdata, Hlen.
  rewrite Z.mul_1_r in Hdata, Hlen.
  assert (Hlt : (Z.to_nat a < length (data row))%nat) by lia.
  apply lookup_lt_is_Some_2 in Hlt as [x Hx].
  exists x. split; [exact Hx|].
  unfold getitem_scalar. rewrite resolve_index_app, Hres, <- Hsh'. cbn.
  assert (Hneg : (a <? 0) = false) by (apply Z.ltb_ge; lia).
  assert (Hin : (0 <=? a) && (a <? n) = true).
  { apply andb_true_intro. split; [apply Z.leb_le | apply Z.ltb_lt]; lia. }
  rewrite Hneg, Hin. cbn.
  rewrite Hdata, lookup_take_lt, lookup_drop in Hx by lia.
  replace (Z.to_nat (k * n + a))
    with (Z.to_nat k * Z.to_nat n + Z.to_nat a)%nat by nia.
  rewrite Hx. reflexivity.
Qed.

Lemma valid_index_app_inv (sh s : list Z) (a : Z) :
  valid_index sh (s ++ [a]) ->
  valid_index sh s /\
  exists d rest, drop (length s) sh = d :: rest /\ 0 <= a < d.
Proof.
  revert sh. induction s as [|i s IH]; intros sh Hv; cbn in Hv.
  - inversion Hv as [|d i' sh' idx' Hi _]; subst.
    split; [constructor|]. exists d, sh'. cbn. auto.
  - inversion Hv as [|d i' sh' idx' Hi Hv']; subst.
    destruct (IH sh' Hv') as (Hs & d' & rest & Hdrop & Ha).
    split; [constructor; assumption|]. exists d', rest. cbn. auto.
Qed.

Lemma getitem_scalar_setitem_eq (q q' : ndarray) (idx : list Z) (old x : float) :
  getitem_scalar q idx = Ok old ->
  setitem q idx x = Ok q' ->
  getitem_scalar q' idx = Ok x /\ shape q' = shape q.
Proof.
  unfold getitem_scalar. intros Hget Hset.
  destruct (resolve_index (shape q) idx 0) as [[k rest]|e] eqn:Hres;
    cbn in Hget; [|discriminate].
  destruct rest; [|discriminate].
  destruct (data q !! Z.to_nat k) as [y|] eqn:Hk; [|discriminate].
  rewrite (setitem_scalar q idx k x Hres) in Hset. injection Hset as <-.
  cbn [shape data]. rewrite Hres. cbn.
  rewrite list_lookup_insert_eq by (eapply lookup_lt_Some, Hk). auto.
Qed.

Lemma getitem_scalar_setitem_ne (q q' : ndarray) (idx idx' : list Z) (x : float) :
  ndarray_wf q ->
  valid_index (shape q) idx -> length idx = length (shape q) ->
  valid_index (shape q) idx' -> length idx' = length (shape q) ->
  idx' <> idx ->
  setitem q idx x = Ok q' ->
  getitem_scalar q' idx' = getitem_scalar q idx'.
Proof.
  intros Hwf Hv Hfull Hv' Hfull' Hne Hset.
  destruct (getitem_scalar_valid q idx Hwf Hv Hfull) as (k & y & Hres & Hk & _).
  destruct (getitem_scalar_valid q idx' Hwf Hv' Hfull')
    as (k' & y' & Hres' & Hk' & _).
  rewrite (setitem_scalar q idx k x Hres) in Hset. injection Hset as <-.
  unfold getitem_scalar. cbn [shape data]. rewrite Hres'. cbn.
  rewrite list_lookup_insert_ne; [reflexivity|].
  intros Heq. apply Hne.
  assert (k = k') by lia. subst k'.
  symmetry.
  apply (resolve_index_injective (shape q) idx idx' 0 0 k [] []);
    auto; congruence.
Qed.

(** C3. When training, the table that a pass through the loop body leaves
    is the old one after the assignment of lines 96-99.  On a well-formed
    table that assignment returns; it writes
    Q[s,a] + 0.9 * (reward + 0.9 * max_a' Q[s',a'] - Q[s,a]) at (s, a) and
    changes no other entry; from Q[s,a] = 0, reward 1 and a maximum of 0 the
    entry becomes exactly 0.9. *)
Theorem C3_q_update_td_rule :
  (forall (R : RandomGen) (S : ActionSampler) (epsilon : float) (i : nat)
          (v v' : @Train.vars R S),
      Train.loop_body true epsilon i v = Ok v' ->
      exists action r e',
        WarehouseRobotEnv.step action (Train.env v) = Ok (r, e') /\
        Train.q_update (Train.q v) (Train.state v ++ [action])
          (WarehouseRobotEnv.reward r) (WarehouseRobotEnv.obs r)
        = Ok (Train.q v')) /\
  (forall (q : ndarray) (s s' : list Z) (a reward : Z),
      ndarray_wf q ->
      length (shape q) = Datatypes.S (length s) ->
      valid_index (shape q) (s ++ [a]) ->
      valid_index (shape q) s' -> length s' = length s ->
      exists old row best q' n,
        getitem_scalar q (s ++ [a]) = Ok old /\
        getitem q s' = Ok row /\ shape row = [n] /\
        (forall a', 0 <= a' < n ->
           exists x, data row !! Z.to_nat a' = Some x /\
                     getitem_scalar q (s' ++ [a']) = Ok x) /\
        np_max row = Ok best /\
        (no_nan (data q) -> is_maximum (data row) best) /\
        Train.q_update q (s ++ [a]) reward s' = Ok q' /\
        shape q' = shape q /\
        getitem_scalar q' (s ++ [a]) = Ok (td_rule old reward best) /\
        (forall idx, valid_index (shape q) idx ->
                     length idx = length (shape q) ->
                     idx <> s ++ [a] ->
                     getitem_scalar q' idx = getitem_scalar q idx) /\
        (old = 0%float -> reward = 1 -> best = 0%float ->
         getitem_scalar q' (s ++ [a]) = Ok 0.9%float)).
Proof.
  split.
  - intros R S epsilon i v v' Hbody. unfold Train.loop_body in Hbody.
    destruct (Train.select_action _ _ _ _ _ _) as [[[action g] sp]|e];
      cbn in Hbody; [|discriminate].
    destruct (WarehouseRobotEnv.step action (Train.env v)) as [[r e']|e]
      eqn:Hstep; cbn in Hbody; [|discriminate].
    destruct (Train.q_update _ _ _ _) as [q'|e] eqn:Hupd; cbn in Hbody;
      [|discriminate].
    exists action, r, e'. split; [exact Hstep|].
    destruct (WarehouseRobotEnv.terminated r); injection Hbody as <-;
      exact Hupd.
  - intros q s s' a reward Hwf Hdim Hsa Hs' Hlen.
    assert (Hfull : length (s ++ [a]) = length (shape q))
      by (rewrite length_app; cbn; lia).
    destruct (valid_index_app_inv _ _ _ Hsa) as (_ & d & rest & Hdrop & Ha).
    assert (Hrest : rest = []).
    { apply (f_equal length) in Hdrop. rewrite length_drop in Hdrop.
      cbn in Hdrop. destruct rest; [reflexivity | cbn in Hdrop; lia]. }
    subst rest.
    destruct (getitem_scalar_valid q (s ++ [a]) Hwf Hsa Hfull)
      as (k & old & Hres & Hk & Hlook & Hold).
    destruct (getitem_valid q s' Hwf Hs')
      as (k' & row & Hres' & Hk' & Hrow & Hshape & Hdata & Hrowlen).
    rewrite Hlen, Hdrop in Hshape.
    assert (Hne : data row <> []).
    { rewrite Hshape in Hrowlen. cbn in Hrowlen.
      destruct (data row); [cbn in Hrowlen; lia | discriminate]. }
    assert (Hbest : exists best, np_max row = Ok best).
    { unfold np_max. destruct (data row); [congruence | eauto]. }
    destruct Hbest as [best Hbest].
    set (q' := mk_ndarray (shape q)
                 (<[Z.to_nat k := td_rule old reward best]> (data q))).
    assert (Hset : setitem q (s ++ [a]) (td_rule old reward best) = Ok q')
      by exact (setitem_scalar q (s ++ [a]) k _ Hres).
    assert (Hupd : Train.q_update q (s ++ [a]) reward s' = Ok q').
    { unfold Train.q_update. rewrite Hold. cbn. rewrite Hrow. cbn.
      rewrite Hbest. cbn. exact Hset. }
    destruct (getitem_scalar_setitem_eq _ _ _ _ _ Hold Hset) as [Hnew Hsh].
    exists old, row, best, q', d.
    split; [exact Hold|]. split; [exact Hrow|]. split; [exact Hshape|].
    split.
    { intros a' Ha'.
      exact (getitem_row_entries q row s' d a' Hwf Hs' Hrow Hshape Ha'). }
    split; [exact Hbest|]. split.
    { intros Hnan.
      destruct (np_max_maximum row Hne) as (best' & Hbest' & Hmax).
      { rewrite Hdata. apply Forall_take, Forall_drop, Hnan. }
      rewrite Hbest in Hbest'. injection Hbest' as <-. exact Hmax. }
    split; [exact Hupd|]. split; [exact Hsh|]. split; [exact Hnew|]. split.
    { intros idx Hv Hidx Hneq.
      exact (getitem_scalar_setitem_ne q q' (s ++ [a]) idx _ Hwf Hsa Hfull
               Hv Hidx Hneq Hset). }
    intros -> -> ->. rewrite Hnew. reflexivity.
Qed.

Lemma C3_q_update_td_rule_witness :
  exists q',
    Train.q_update (np_zeros [4; 5; 4; 5; 4]) ([0; 3; 1; 3] ++ [1]) 1
      [1; 3; 1; 3] = Ok q' /\
    getitem_scalar q' ([0; 3; 1; 3] ++ [1]) = Ok 0.9%float /\
    getitem_scalar q' [0; 3; 1; 3; 0] = Ok 0%float.
Proof.
  assert (Hwf : ndarray_wf (np_zeros [4; 5; 4; 5; 4])).
  { split; [repeat constructor; lia | vm_compute; reflexivity]. }
  destruct (proj2 C3_q_update_td_rule (np_zeros [4; 5; 4; 5; 4])
              [0; 3; 1; 3] [1; 3; 1; 3] 1 1 Hwf)
    as (old & row & best & q' & n & Hold & Hrow & _ & _ & Hbest & _ & Hupd
        & _ & _ & Hother & Hexample);
    [reflexivity | repeat constructor; lia | repeat constructor; lia
     | reflexivity |].
  exists q'. split; [exact Hupd|]. split.
  - apply Hexample; [| reflexivity |].
    + vm_compute in Hold. congruence.
    + vm_compute in Hrow. injection Hrow as <-.
      vm_compute in Hbest. congruence.
  - rewrite Hother; [vm_compute; reflexivity | repeat constructor; lia
                     | reflexivity | discriminate].
Defined.

(** * Action selection *)

Section Selection.
Context {R : RandomGen} {S : ActionSampler}.

(** C4. The action is the draw from the action space exactly when training
    and the draw of [random.random()] is below epsilon.  In every other
    case (never training, or epsilon 0) it is [np.argmax] of the row
    Q[s, .] of the table, which is the first index of a greatest entry. *)
Theorem C4_epsilon_greedy (is_training : bool) (epsilon : float)
    (q : ndarray) (state : list Z) (n : Z) (g : rng) (sp : sampler) :
  random_in_unit -> sample_in_range ->
  ndarray_wf q -> no_nan (data q) ->
  valid_index (shape q) state ->
  drop (length state) (shape q) = [n] -> 0 < n ->
  exists row greedy,
    getitem q state = Ok row /\
    (forall a, 0 <= a < n ->
       exists x, data row !! Z.to_nat a = Some x /\
                 getitem_scalar q (state ++ [a]) = Ok x) /\
    np_argmax row = Ok greedy /\
    first_argmax (data row) greedy /\
    0 <= greedy < n /\
    let u := (rng_random g).1 in
    let g' := (rng_random g).2 in
    let random_action := (discrete_sample 4 sp).1 in
    let sp' := (discrete_sample 4 sp).2 in
    (is_training = true -> (u <? epsilon)%float = true ->
     Train.select_action is_training epsilon q state g sp
     = Ok (random_action, g', sp') /\ 0 <= random_action < 4) /\
    (is_training = true -> (u <? epsilon)%float = false ->
     Train.select_action is_training epsilon q state g sp
     = Ok (greedy, g', sp)) /\
    (is_training = false ->
     Train.select_action is_training epsilon q state g sp
     = Ok (greedy, g, sp)) /\
    (is_training = true -> epsilon = 0%float ->
     Train.select_action is_training epsilon q state g sp
     = Ok (greedy, g', sp)).
Proof.
  intros Hunit Hsample Hwf Hnan Hv Hdrop Hn.
  destruct (getitem_valid q state Hwf Hv)
    as (k & row & Hres & Hk & Hrow & Hshape & Hdata & Hrowlen).
  rewrite Hdrop in Hshape.
  assert (Hlen : Z.of_nat (length (data row)) = n).
  { rewrite Hrowlen, Hshape. cbn. lia. }
  assert (Hne : data row <> []).
  { destruct (data row); [cbn in Hlen; lia | discriminate]. }
  assert (Hrow_nan : no_nan (data row)).
  { rewrite Hdata. apply Forall_take, Forall_drop, Hnan. }
  destruct (np_argmax_first row Hne Hrow_nan) as (greedy & Harg & Hfirst).
  exists row, greedy.
  split; [exact Hrow|]. split.
  { intros a Ha.
    exact (getitem_row_entries q row state n a Hwf Hv Hrow Hshape Ha). }
  split; [exact Harg|]. split; [exact Hfirst|]. split.
  { destruct Hfirst as (x & Hge & Hx & _).
    apply lookup_lt_Some in Hx. lia. }
  cbn zeta. unfold Train.select_action.
  destruct (rng_random g) as [u g'] eqn:Hdraw. cbn [fst snd].
  destruct (discrete_sample 4 sp) as [ra sp'] eqn:Hsp. cbn [fst snd].
  pose proof (Hsample 4 sp ltac:(lia)) as Hr. rewrite Hsp in Hr. cbn in Hr.
  pose proof (Hunit g) as Hu0. rewrite Hdraw in Hu0. cbn in Hu0.
  rewrite Hrow. cbn. rewrite Harg. cbn.
  split; [intros -> ->; split; [reflexivity | exact Hr]|].
  split; [intros -> ->; reflexivity|].
  split; [intros ->; reflexivity|].
  intros -> ->. rewrite Hu0. reflexivity.
Qed.

End Selection.

Lemma C4_epsilon_greedy_witness :
  @Train.select_action lcg lcg_sampler false 1%float tied_table [0] 5 7
  = Ok (1, 5, 7) /\
  @Train.select_action lcg lcg_sampler true 0%float tied_table [1] 5 7
  = Ok (0, lcg_next 5, 7).
Proof.
  assert (Hwf : ndarray_wf tied_table).
  { split; [repeat constructor; lia | reflexivity]. }
  assert (Hnan : no_nan (data tied_table)) by (repeat constructor).
  split.
  - destruct (@C4_epsilon_greedy lcg lcg_sampler false 1%float tied_table
                [0] 4 5 7 lcg_random_in_unit lcg_sample_in_range Hwf Hnan)
      as (row & greedy & Hrow & _ & Harg & _ & _ & _ & _ & Heval & _);
      [repeat constructor; lia | reflexivity | lia |].
    vm_compute in Hrow. injection Hrow as <-.
    vm_compute in Harg. injection Harg as <-.
    exact (Heval eq_refl).
  - destruct (@C4_epsilon_greedy lcg lcg_sampler true 0%float tied_table
                [1] 4 5 7 lcg_random_in_unit lcg_sample_in_range Hwf Hnan)
      as (row & greedy & Hrow & _ & Harg & _ & _ & _ & _ & _ & Hzero);
      [repeat constructor; lia | reflexivity | lia |].
    vm_compute in Hrow. injection Hrow as <-.
    vm_compute in Harg. injection Harg as <-.
    exact (Hzero eq_refl eq_refl).
Defined.

(** * The decay of epsilon *)

Lemma iter_shift {A} (f : A -> A) (k : nat) (x : A) :
  Nat.iter k f (f x) = f (Nat.iter k f x).
Proof.
  rewrite <- Nat.iter_succ_r. reflexivity.
Qed.

Lemma episodes_loop_epsilon {R : RandomGen} {S : ActionSampler}
    (fuel : nat) (is_training : bool) (episodes : nat)
    (os_entropy : nat -> Z) (todo : list nat)
    (v v' : Train.vars) (epsilon epsilon' : float) :
  Train.episodes_loop fuel is_training episodes os_entropy todo (v, epsilon)
  = Some (Ok (v', epsilon')) ->
  epsilon' = Nat.iter (length todo)
               (Train.epsilon_decay (Z.of_nat episodes)) epsilon.
Proof.
  revert v epsilon. induction todo as [|i todo IH]; intros v epsilon Hrun.
  - cbn in Hrun. injection Hrun as <- <-. reflexivity.
  - cbn [Train.episodes_loop] in Hrun.
    destruct (Train.episode fuel is_training episodes (os_entropy i) i
                (v, epsilon)) as [[[v1 eps1]|e]|] eqn:Hep;
      [|discriminate|discriminate].
    apply IH in Hrun. rewrite Hrun. cbn [length].
    change (Nat.iter (Datatypes.S (length todo)) ?f ?x)
      with (f (Nat.iter (length todo) f x)).
    rewrite <- iter_shift. f_equal.
    unfold Train.episode in Hep.
    destruct (WarehouseRobotEnv.reset None (os_entropy i) (Train.env v))
      as [[[state0 env'] g]|e]; [|discriminate].
    destruct (Train.while_loop _ _ _ _ _) as [[v2|e]|];
      [|discriminate|discriminate].
    congruence.
Qed.

Lemma py_max0_not_negative (x : float) : (py_max0 x <? 0)%float = false.
Proof.
  unfold py_max0. destruct (x <? 0)%float eqn:Hx; [reflexivity | exact Hx].
Qed.

(** C5, as stated, fails: in a run of 3 episodes the third decay leaves
    epsilon at 2^-53, which is greater than 0. *)
Lemma C5_epsilon_not_zero_after_3 :
  epsilon_after 3 3 = 1.1102230246251565e-16%float /\
  (epsilon_after 3 3 =? 0)%float = false /\
  (0 <? epsilon_after 3 3)%float = true.
Proof. vm_compute. auto. Qed.

(** C5, amended. Epsilon is never negative, for any run length and any
    number of decays, and the epsilon that the loop over the episodes ends
    with is the start value decayed once per episode.  After the last
    episode it is exactly 0 for the run lengths 1, 2, 4, 8 and 1000 (the
    length the script trains with). *)
Theorem C5_epsilon_decay_amended :
  (forall episodes k : nat, (epsilon_after episodes k <? 0)%float = false) /\
  (forall (R : RandomGen) (S : ActionSampler) fuel is_training episodes
          os_entropy (v v' : @Train.vars R S) epsilon',
      Train.episodes_loop fuel is_training episodes os_entropy
        (seq 0 episodes) (v, 1%float) = Some (Ok (v', epsilon')) ->
      epsilon' = epsilon_after episodes episodes) /\
  (forall episodes : nat,
      In episodes [1; 2; 4; 8; 1000]%nat ->
      epsilon_after episodes episodes = 0%float).
Proof.
  split; [|split].
  - intros episodes [|k]; [reflexivity|].
    unfold epsilon_after. cbn [Nat.iter]. unfold Train.epsilon_decay.
    apply py_max0_not_negative.
  - intros R S fuel is_training episodes os_entropy v v' epsilon' Hrun.
    apply episodes_loop_epsilon in Hrun.
    rewrite length_seq in Hrun. exact Hrun.
  - intros episodes Hin. cbn in Hin.
    repeat destruct Hin as [<- | Hin]; try (vm_compute; reflexivity).
    contradiction.
Qed.

Lemma C5_epsilon_decay_amended_witness :
  epsilon_after 1000 1000 = 0%float /\
  (epsilon_after 1000 500 <? 0)%float = false.
Proof.
  destruct C5_epsilon_decay_amended as (Hnonneg & _ & Hzero).
  split; [apply Hzero; cbn; tauto | apply Hnonneg].
Defined.

(** * The moving average *)

Lemma window_slice (steps : list float) (t : Z) :
  0 <= t < Z.of_nat (length steps) ->
  Train.window t steps
  = take (Z.to_nat (Z.min 101 (t + 1)))
      (drop (Z.to_nat (Z.max 0 (t - 100))) steps) /\
  length (Train.window t steps) = Z.to_nat (Z.min 101 (t + 1)).
Proof.
  intros Ht. unfold Train.window, py_slice, slice_bound.
  assert (Hlo : (Z.max 0 (t - 100) <? 0) = false) by (apply Z.ltb_ge; lia).
  assert (Hhi : (t + 1 <? 0) = false) by (apply Z.ltb_ge; lia).
  rewrite Hlo, Hhi.
  replace (Z.min (t + 1) (Z.of_nat (length steps))) with (t + 1) by lia.
  replace (Z.min (Z.max 0 (t - 100)) (Z.of_nat (length steps)))
    with (Z.max 0 (t - 100)) by lia.
  replace (t + 1 - Z.max 0 (t - 100)) with (Z.min 101 (t + 1)) by lia.
  split; [reflexivity|].
  rewrite length_take, length_drop. lia.
Qed.

(** C8. The value at index [t] averages the entries from [t - 100] to [t]:
    101 entries once [t] is at least 100, not the most recent 100.  In a run
    of 101 episodes with 103 steps in the first and 2 in each of the others,
    the value at index 100 is 3, the mean of all 101 entries, where the mean
    of the most recent 100 is 2. *)
Theorem C8_window_has_101_entries :
  (forall (steps : list float) (t : Z),
      0 <= t < Z.of_nat (length steps) ->
      length (Train.window t steps) = Z.to_nat (Z.min 101 (t + 1))) /\
  length steps_101 = 101%nat /\
  Train.window 100 steps_101 = steps_101 /\
  Train.moving_average 101 steps_101 !! 100%nat = Some 3%float /\
  np_mean (drop 1 steps_101) = 2%float.
Proof.
  split; [intros steps t Ht; apply window_slice, Ht|].
  vm_compute. auto.
Qed.

Lemma C8_window_has_101_entries_witness :
  length (Train.window 100 steps_101) = 101%nat.
Proof.
  apply (proj1 C8_window_has_101_entries steps_101 100).
  vm_compute. split; [discriminate | reflexivity].
Defined.

(** * Loading the table *)

Lemma loop_body_evaluation_keeps_q {R : RandomGen} {S : ActionSampler}
    (epsilon : float) (i : nat) (v v' : Train.vars) :
  Train.loop_body false epsilon i v = Ok v' -> Train.q v' = Train.q v.
Proof.
  unfold Train.loop_body. intros Hbody.
  destruct (Train.select_action _ _ _ _ _ _) as [[[action g] sp]|e];
    cbn in Hbody; [|discriminate].
  destruct (WarehouseRobotEnv.step action (Train.env v)) as [[r e']|e];
    cbn in Hbody; [|discriminate].
  destruct (WarehouseRobotEnv.terminated r); injection Hbody as <-;
    reflexivity.
Qed.

(** C9, as stated, fails: on the 4 by 5 grid, the evaluation run that loads
    a table of shape (5, 6, 5, 6, 4) raises nothing and completes its
    episode, in 4 steps. *)
Lemma C9_mismatched_table_completes_episode :
  shape table_5x6 <> [4; 5; 4; 5; 4] /\
  @Train.run_q lcg lcg_sampler 4 5 100 0 (fun _ => 0) table_5x6 0 1 false
  = Some (Ok (Train.mk_report [4%float] [4%float] None)).
Proof.
  split; [discriminate | vm_compute; reflexivity].
Qed.

(** C9, amended. When not training, the table is the loaded array as it is,
    whatever its shape, and the loop body never changes it.  Its shape
    matters only where it is indexed: the pass through the loop body raises
    the error of the lookup [q[state]] when that lookup fails, and
    otherwise goes on with [np.argmax] of the row found. *)
Theorem C9_table_used_unvalidated {R : RandomGen} {S : ActionSampler} :
  (forall (e : WarehouseRobotEnv.t) (pickled : ndarray),
      Train.initial_q false e pickled = pickled) /\
  (forall (epsilon : float) (i : nat) (v v' : Train.vars),
      Train.loop_body false epsilon i v = Ok v' ->
      Train.q v' = Train.q v) /\
  (forall (epsilon : float) (i : nat) (v : Train.vars) (err : exn),
      getitem (Train.q v) (Train.state v) = Raise err ->
      Train.loop_body false epsilon i v = Raise err) /\
  (forall (epsilon : float) (q : ndarray) (state : list Z) (g : rng)
          (sp : sampler) (row : ndarray),
      getitem q state = Ok row ->
      Train.select_action false epsilon q state g sp
      = (action ← np_argmax row; Ok (action, g, sp))).
Proof.
  split; [reflexivity|]. split; [|split].
  - intros epsilon i v v'. apply loop_body_evaluation_keeps_q.
  - intros epsilon i v err Hget.
    unfold Train.loop_body, Train.select_action. rewrite Hget. reflexivity.
  - intros epsilon q state g sp row Hget.
    unfold Train.select_action. rewrite Hget. reflexivity.
Qed.

Lemma C9_table_used_unvalidated_witness :
  Train.initial_q false
    (WarehouseRobotEnv.mk 4 5 (WarehouseRobot.mk 4 5 (0, 0) (2, 2) None))
    table_5x6 = table_5x6 /\
  @Train.loop_body lcg lcg_sampler false 1%float 0
    (Train.mk_vars lcg lcg_sampler
       (WarehouseRobotEnv.mk 4 5 (WarehouseRobot.mk 4 5 (0, 0) (2, 2) None))
       (np_zeros [2; 2; 2; 2; 4]) [0; 0; 2; 2] false 0 [0%float] 0 0)
  = Raise IndexError.
Proof.
  destruct (@C9_table_used_unvalidated lcg lcg_sampler)
    as (Hload & _ & Hraise & _).
  split; [apply Hload|].
  apply Hraise. vm_compute. reflexivity.
Defined.

(** * Further properties: errors of the environment *)

Lemma RobotAction_call_value (a : RobotAction) :
  RobotAction_call (RobotAction_value a) = Ok a.
Proof. destruct a; reflexivity. Qed.

Lemma RobotAction_call_Ok (v : Z) (a : RobotAction) :
  RobotAction_call v = Ok a <-> v = RobotAction_value a.
Proof.
  split; [|intros ->; apply RobotAction_call_value].
  unfold RobotAction_call.
  destruct (v =? 0) eqn:E0; [apply Z.eqb_eq in E0; intros [= <-]; exact E0|].
  destruct (v =? 1) eqn:E1; [apply Z.eqb_eq in E1; intros [= <-]; exact E1|].
  destruct (v =? 2) eqn:E2; [apply Z.eqb_eq in E2; intros [= <-]; exact E2|].
  destruct (v =? 3) eqn:E3; [apply Z.eqb_eq in E3; intros [= <-]; exact E3|].
  discriminate.
Qed.

Lemma RobotAction_call_cases (v : Z) :
  (0 <= v <= 3 /\ exists a, RobotAction_call v = Ok a) \/
  (~ 0 <= v <= 3 /\ RobotAction_call v = Raise ValueError).
Proof.
  destruct (decide (0 <= v <= 3)) as [Hin | Hout].
  - left. split; [exact Hin|].
    assert (v = 0 \/ v = 1 \/ v = 2 \/ v = 3) as [-> | [-> | [-> | ->]]]
      by lia; eexists; reflexivity.
  - right. split; [exact Hout|]. unfold RobotAction_call.
    destruct (v =? 0) eqn:E0; [apply Z.eqb_eq in E0; lia|].
    destruct (v =? 1) eqn:E1; [apply Z.eqb_eq in E1; lia|].
    destruct (v =? 2) eqn:E2; [apply Z.eqb_eq in E2; lia|].
    destruct (v =? 3) eqn:E3; [apply Z.eqb_eq in E3; lia|].
    reflexivity.
Qed.

(** X1. [step] raises a [ValueError] exactly for an action index outside
    0..3, and returns for every index in that range. *)
Theorem step_value_error (action : Z) (e : WarehouseRobotEnv.t) :
  (WarehouseRobotEnv.step action e = Raise ValueError
   <-> ~ 0 <= action <= 3) /\
  ((exists r e', WarehouseRobotEnv.step action e = Ok (r, e'))
   <-> 0 <= action <= 3).
Proof.
  unfold WarehouseRobotEnv.step.
  destruct (RobotAction_call_cases action) as [[Hin [a Ha]] | [Hout Hraise]].
  - rewrite Ha. cbn.
    destruct (WarehouseRobot.perform_action a _) as [[] w]; cbn;
      (split; split; [discriminate | tauto | tauto | eauto]).
  - rewrite Hraise. cbn.
    split; split; [tauto | reflexivity | | tauto].
    intros (r & e' & Hr). discriminate.
Qed.

(** X2. [reset] returns exactly on a grid with at least 2 rows and 2
    columns; on a smaller one the draw of the goal has an empty range and
    raises a [ValueError]. *)
Theorem reset_value_error {R : RandomGen} (seed : option Z) (os_entropy : Z)
    (w : WarehouseRobot.t) :
  (WarehouseRobot.reset seed os_entropy w = Raise ValueError
   <-> WarehouseRobot.grid_rows w < 2 \/ WarehouseRobot.grid_cols w < 2) /\
  ((exists w' g, WarehouseRobot.reset seed os_entropy w = Ok (w', g))
   <-> 2 <= WarehouseRobot.grid_rows w /\ 2 <= WarehouseRobot.grid_cols w).
Proof.
  destruct w as [rows cols rp tp la].
  unfold WarehouseRobot.reset, randint, randrange. cbn.
  replace (rows - 1 + 1 - 1) with (rows - 1) by lia.
  replace (cols - 1 + 1 - 1) with (cols - 1) by lia.
  destruct (0 <? rows - 1) eqn:Hr;
    [apply Z.ltb_lt in Hr | apply Z.ltb_ge in Hr]; cbn.
  - destruct (rng_randbelow (rows - 1) _) as [r g1]. cbn.
    destruct (0 <? cols - 1) eqn:Hc;
      [apply Z.ltb_lt in Hc | apply Z.ltb_ge in Hc]; cbn.
    + destruct (rng_randbelow (cols - 1) g1) as [c g2]. cbn.
      split; split; try discriminate; try lia; intros; eauto.
    + split; split; try lia; auto.
      intros (w' & g & H). discriminate.
  - split; split; try lia; auto.
    intros (w' & g & H). discriminate.
Qed.

(** * Further properties: the environment on its grid *)

Lemma perform_action_robot_pos (a : RobotAction) (w : WarehouseRobot.t) :
  WarehouseRobot.robot_pos (WarehouseRobot.perform_action a w).2
  = let p := WarehouseRobot.robot_pos w in
    match a with
    | LEFT => if 0 <? p.2 then (p.1, p.2 - 1) else p
    | RIGHT =>
        if p.2 <? WarehouseRobot.grid_cols w - 1 then (p.1, p.2 + 1) else p
    | UP => if 0 <? p.1 then (p.1 - 1, p.2) else p
    | DOWN =>
        if p.1 <? WarehouseRobot.grid_rows w - 1 then (p.1 + 1, p.2) else p
    end.
Proof.
  destruct w as [R C [r c] tp la].
  destruct a; cbn; case_match; reflexivity.
Qed.

Lemma perform_action_in_grid (a : RobotAction) (w : WarehouseRobot.t) :
  in_grid (WarehouseRobot.grid_rows w) (WarehouseRobot.grid_cols w)
    (WarehouseRobot.robot_pos w) ->
  in_grid (WarehouseRobot.grid_rows w) (WarehouseRobot.grid_cols w)
    (WarehouseRobot.robot_pos (WarehouseRobot.perform_action a w).2).
Proof.
  rewrite perform_action_robot_pos.
  destruct w as [R C [r c] tp la]. unfold in_grid. cbn.
  destruct a; case_match; cbn;
    repeat match goal with
           | H : (_ <? _) = true |- _ => apply Z.ltb_lt in H
           | H : (_ <? _) = false |- _ => apply Z.ltb_ge in H
           end; lia.
Qed.


Lemma step_env_ok (R C : Z) (a : RobotAction) (e : WarehouseRobotEnv.t) :
  env_ok R C e ->
  env_ok R C
    (WarehouseRobotEnv.set_warehouse_robot
       (WarehouseRobot.perform_action a
          (WarehouseRobotEnv.warehouse_robot e)).2 e).
Proof.
  intros (HR & HC & Hr & Hc & Hwr & Hwc & Hin & Ht1 & Ht2).
  pose proof (perform_action_fields a (WarehouseRobotEnv.warehouse_robot e))
    as (Frows & Fcols & Ftarget & _).
  pose proof (perform_action_in_grid a (WarehouseRobotEnv.warehouse_robot e))
    as Hgrid.
  rewrite Hwr, Hwc in Hgrid.
  unfold env_ok. cbn [WarehouseRobotEnv.set_warehouse_robot
                      WarehouseRobotEnv.grid_rows WarehouseRobotEnv.grid_cols
                      WarehouseRobotEnv.warehouse_robot].
  rewrite Frows, Fcols, Ftarget. auto 10.
Qed.



Section ResetInvariant.
Context {R0 : RandomGen}.
Hypothesis randbelow_ok : randbelow_in_range.

Lemma reset_env_ok (R C : Z) (seed : option Z) (os_entropy : Z)
    (e : WarehouseRobotEnv.t) :
  2 <= R -> 2 <= C ->
  WarehouseRobotEnv.grid_rows e = R -> WarehouseRobotEnv.grid_cols e = C ->
  WarehouseRobot.grid_rows (WarehouseRobotEnv.warehouse_robot e) = R ->
  WarehouseRobot.grid_cols (WarehouseRobotEnv.warehouse_robot e) = C ->
  exists e' g,
    WarehouseRobotEnv.reset seed os_entropy e
    = Ok (WarehouseRobotEnv.observation (WarehouseRobotEnv.warehouse_robot e'),
          e', g) /\
    env_ok R C e' /\
    WarehouseRobot.robot_pos (WarehouseRobotEnv.warehouse_robot e') = (0, 0).
Proof using randbelow_ok.
  intros HR HC Hr Hc Hwr Hwc.
  destruct e as [er ec [rows cols rp tp la]]. cbn in *. subst er ec rows cols.
  unfold WarehouseRobotEnv.reset, WarehouseRobot.reset. cbn.
  destruct (randint_in_range randbelow_ok 1 (R - 1)
              (random_seed seed os_entropy))
    as (r & g1 & Hdraw_r & Hrange_r); [lia|].
  rewrite Hdraw_r. cbn.
  destruct (randint_in_range randbelow_ok 1 (C - 1) g1)
    as (c & g2 & Hdraw_c & Hrange_c); [lia|].
  rewrite Hdraw_c. cbn.
  exists (WarehouseRobotEnv.mk R C (WarehouseRobot.mk R C (0, 0) (r, c) la)), g2.
  split; [reflexivity|].
  unfold env_ok, in_grid. cbn. split; [|reflexivity]. lia.
Qed.

End ResetInvariant.

(** * Further properties: how many steps an episode takes *)

Lemma perform_action_manhattan (a : RobotAction) (w : WarehouseRobot.t)
    (t : Z * Z) :
  manhattan (WarehouseRobot.robot_pos w) t
  <= manhattan (WarehouseRobot.robot_pos (WarehouseRobot.perform_action a w).2) t
     + 1.
Proof.
  rewrite perform_action_robot_pos.
  destruct w as [R C [r c] tp la], t as [tr tc]. unfold manhattan. cbn.
  destruct a; case_match; cbn; lia.
Qed.

Lemma run_actions_fields (acts : list RobotAction) (w : WarehouseRobot.t) :
  WarehouseRobot.grid_rows (run_actions acts w) = WarehouseRobot.grid_rows w /\
  WarehouseRobot.grid_cols (run_actions acts w) = WarehouseRobot.grid_cols w /\
  WarehouseRobot.target_pos (run_actions acts w) = WarehouseRobot.target_pos w.
Proof.
  revert w. induction acts as [|a acts IH]; intros w; [cbn; auto|].
  cbn [run_actions foldl]. fold (run_actions acts).
  destruct (IH (WarehouseRobot.perform_action a w).2) as (Hr & Hc & Ht).
  destruct (perform_action_fields a w) as (Fr & Fc & Ft & _).
  unfold run_actions in *. rewrite Hr, Hc, Ht. auto.
Qed.

Lemma run_actions_app (acts1 acts2 : list RobotAction) (w : WarehouseRobot.t) :
  run_actions (acts1 ++ acts2) w = run_actions acts2 (run_actions acts1 w).
Proof. unfold run_actions. apply foldl_app. Qed.

Lemma run_actions_manhattan (acts : list RobotAction) (w : WarehouseRobot.t)
    (t : Z * Z) :
  manhattan (WarehouseRobot.robot_pos w) t
  <= manhattan (WarehouseRobot.robot_pos (run_actions acts w)) t
     + Z.of_nat (length acts).
Proof.
  revert w. induction acts as [|a acts IH]; intros w; [cbn; lia|].
  cbn [run_actions foldl length]. fold (run_actions acts).
  pose proof (IH (WarehouseRobot.perform_action a w).2) as Hrest.
  pose proof (perform_action_manhattan a w t) as Hone.
  unfold run_actions in *. lia.
Qed.

Lemma run_actions_cons (a : RobotAction) (acts : list RobotAction)
    (w : WarehouseRobot.t) :
  run_actions (a :: acts) w
  = run_actions acts (WarehouseRobot.perform_action a w).2.
Proof. reflexivity. Qed.

Lemma run_actions_line (n : nat) (w : WarehouseRobot.t) :
  let p := WarehouseRobot.robot_pos w in
  (p.1 + Z.of_nat n <= WarehouseRobot.grid_rows w - 1 ->
   WarehouseRobot.robot_pos (run_actions (replicate n DOWN) w)
   = (p.1 + Z.of_nat n, p.2)) /\
  (0 <= p.1 - Z.of_nat n ->
   WarehouseRobot.robot_pos (run_actions (replicate n UP) w)
   = (p.1 - Z.of_nat n, p.2)) /\
  (p.2 + Z.of_nat n <= WarehouseRobot.grid_cols w - 1 ->
   WarehouseRobot.robot_pos (run_actions (replicate n RIGHT) w)
   = (p.1, p.2 + Z.of_nat n)) /\
  (0 <= p.2 - Z.of_nat n ->
   WarehouseRobot.robot_pos (run_actions (replicate n LEFT) w)
   = (p.1, p.2 - Z.of_nat n)).
Proof.
  revert w. induction n as [|n IH]; intros w; cbn zeta.
  - cbn [replicate run_actions foldl].
    destruct (WarehouseRobot.robot_pos w) as [r c]. cbn [fst snd].
    repeat split; intros; f_equal; lia.
  - cbn [replicate]. rewrite !run_actions_cons.
    repeat split; intros Hroom.
    + destruct (IH (WarehouseRobot.perform_action DOWN w).2) as (H & _).
      destruct (perform_action_fields DOWN w) as (Fr & Fc & _).
      rewrite perform_action_robot_pos, Fr in H. cbn zeta in H.
      destruct (WarehouseRobot.robot_pos w) as [r c]. cbn [fst snd] in *.
      assert (Hlt : (r <? WarehouseRobot.grid_rows w - 1) = true)
        by (apply Z.ltb_lt; lia).
      rewrite Hlt in H. cbn [fst snd] in H. rewrite H by lia. f_equal; lia.
    + destruct (IH (WarehouseRobot.perform_action UP w).2) as (_ & H & _).
      rewrite perform_action_robot_pos in H. cbn zeta in H.
      destruct (WarehouseRobot.robot_pos w) as [r c]. cbn [fst snd] in *.
      assert (Hlt : (0 <? r) = true) by (apply Z.ltb_lt; lia).
      rewrite Hlt in H. cbn [fst snd] in H. rewrite H by lia. f_equal; lia.
    + destruct (IH (WarehouseRobot.perform_action RIGHT w).2)
        as (_ & _ & H & _).
      destruct (perform_action_fields RIGHT w) as (Fr & Fc & _).
      rewrite perform_action_robot_pos, Fc in H. cbn zeta in H.
      destruct (WarehouseRobot.robot_pos w) as [r c]. cbn [fst snd] in *.
      assert (Hlt : (c <? WarehouseRobot.grid_cols w - 1) = true)
        by (apply Z.ltb_lt; lia).
      rewrite Hlt in H. cbn [fst snd] in H. rewrite H by lia. f_equal; lia.
    + destruct (IH (WarehouseRobot.perform_action LEFT w).2)
        as (_ & _ & _ & H).
      rewrite perform_action_robot_pos in H. cbn zeta in H.
      destruct (WarehouseRobot.robot_pos w) as [r c]. cbn [fst snd] in *.
      assert (Hlt : (0 <? c) = true) by (apply Z.ltb_lt; lia).
      rewrite Hlt in H. cbn [fst snd] in H. rewrite H by lia. f_equal; lia.
Qed.

(** X4. Between two cells of the grid the least number of actions is the
    sum of the row and column distances: no sequence of actions that brings
    the robot to a cell is shorter, and the path along the rows and then
    along the columns has that length and arrives. *)
Theorem shortest_path_is_manhattan (w : WarehouseRobot.t) (t : Z * Z) :
  in_grid (WarehouseRobot.grid_rows w) (WarehouseRobot.grid_cols w)
    (WarehouseRobot.robot_pos w) ->
  in_grid (WarehouseRobot.grid_rows w) (WarehouseRobot.grid_cols w) t ->
  (forall acts,
      WarehouseRobot.robot_pos (run_actions acts w) = t ->
      manhattan (WarehouseRobot.robot_pos w) t <= Z.of_nat (length acts)) /\
  Z.of_nat (length (path_to (WarehouseRobot.robot_pos w) t))
  = manhattan (WarehouseRobot.robot_pos w) t /\
  WarehouseRobot.robot_pos
    (run_actions (path_to (WarehouseRobot.robot_pos w) t) w) = t.
Proof.
  intros [Hp1 Hp2] [Ht1 Ht2]. split; [|split].
  - intros acts Hreach.
    pose proof (run_actions_manhattan acts w t) as Hd.
    rewrite Hreach in Hd. unfold manhattan in *. lia.
  - unfold path_to, manhattan. rewrite length_app.
    destruct (_.1 <=? t.1) eqn:H1; destruct (_.2 <=? t.2) eqn:H2;
      rewrite !length_replicate;
      repeat match goal with
             | H : (_ <=? _) = true |- _ => apply Z.leb_le in H
             | H : (_ <=? _) = false |- _ => apply Z.leb_gt in H
             end; lia.
  - destruct t as [tr tc]. cbn [fst snd] in *.
    unfold path_to. cbn [fst snd]. rewrite run_actions_app.
    set (rows_part := if _ <=? tr then _ else _).
    assert (Hrows : WarehouseRobot.robot_pos (run_actions rows_part w)
                    = (tr, (WarehouseRobot.robot_pos w).2)).
    { subst rows_part.
      destruct (_.1 <=? tr) eqn:H1;
        [apply Z.leb_le in H1 | apply Z.leb_gt in H1].
      - destruct (run_actions_line
                    (Z.to_nat (tr - (WarehouseRobot.robot_pos w).1)) w)
          as (H & _).
        cbn zeta in H. rewrite H by lia. f_equal. lia.
      - destruct (run_actions_line
                    (Z.to_nat ((WarehouseRobot.robot_pos w).1 - tr)) w)
          as (_ & H & _).
        cbn zeta in H. rewrite H by lia. f_equal. lia. }
    destruct (run_actions_fields rows_part w) as (Fr & Fc & _).
    clearbody rows_part.
    destruct (_.2 <=? tc) eqn:H2;
      [apply Z.leb_le in H2 | apply Z.leb_gt in H2].
    + destruct (run_actions_line
                  (Z.to_nat (tc - (WarehouseRobot.robot_pos w).2))
                  (run_actions rows_part w)) as (_ & _ & H & _).
      cbn zeta in H. rewrite Hrows, Fc in H. cbn [fst snd] in H.
      rewrite H by lia. f_equal. lia.
    + destruct (run_actions_line
                  (Z.to_nat ((WarehouseRobot.robot_pos w).2 - tc))
                  (run_actions rows_part w)) as (_ & _ & _ & H).
      cbn zeta in H. rewrite Hrows in H. cbn [fst snd] in H.
      rewrite H by lia. f_equal. lia.
Qed.

Lemma shortest_path_is_manhattan_witness :
  let w := WarehouseRobot.mk 4 5 (0, 0) (2, 3) None in
  path_to (0, 0) (2, 3) = [DOWN; DOWN; RIGHT; RIGHT; RIGHT] /\
  WarehouseRobot.robot_pos (run_actions (path_to (0, 0) (2, 3)) w) = (2, 3) /\
  manhattan (0, 0) (2, 3) <= Z.of_nat (length [RIGHT; DOWN; RIGHT; DOWN; RIGHT]).
Proof.
  cbn zeta.
  destruct (shortest_path_is_manhattan
              (WarehouseRobot.mk 4 5 (0, 0) (2, 3) None) (2, 3))
    as (Hlow & _ & Hreach);
    [unfold in_grid; cbn; lia | unfold in_grid; cbn; lia |].
  split; [reflexivity|]. split; [exact Hreach|].
  apply Hlow. reflexivity.
Defined.

(** * Further properties: the bookkeeping of an episode *)

Section Episode.
Context {R0 : RandomGen} {S0 : ActionSampler}.

Lemma loop_body_inv (is_training : bool) (epsilon : float) (i : nat)
    (v v' : Train.vars) :
  Train.loop_body is_training epsilon i v = Ok v' ->
  exists (action : Z) (a : RobotAction),
    RobotAction_call action = Ok a /\
    let pa := WarehouseRobot.perform_action a
                (WarehouseRobotEnv.warehouse_robot (Train.env v)) in
    Train.env v' = WarehouseRobotEnv.set_warehouse_robot pa.2 (Train.env v) /\
    Train.terminated v' = pa.1 /\
    Train.state v' = WarehouseRobotEnv.observation pa.2 /\
    (is_training = false -> Train.q v' = Train.q v) /\
    Train.steps_per_episode v'
    = (if pa.1
       then <[i := float_of_Z (Train.step_count v + 1)]>
              (Train.steps_per_episode v)
       else Train.steps_per_episode v) /\
    Train.step_count v' = (if pa.1 then 0 else Train.step_count v + 1).
Proof.
  unfold Train.loop_body. intros Hbody.
  destruct (Train.select_action _ _ _ _ _ _) as [[[action g] sp]|e];
    cbn in Hbody; [|discriminate].
  unfold WarehouseRobotEnv.step in Hbody.
  destruct (RobotAction_call action) as [a|e] eqn:Hcall; cbn in Hbody;
    [|discriminate].
  exists action, a. split; [exact Hcall|]. cbn zeta.
  destruct (WarehouseRobot.perform_action a _) as [reached w'].
  cbn [fst snd].
  destruct reached; cbn in Hbody;
    (destruct is_training;
     [destruct (Train.q_update _ _ _ _) as [q'|e]; cbn in Hbody;
      [|discriminate]|]);
    injection Hbody as <-; cbn; repeat split; auto; discriminate.
Qed.

Lemma while_loop_steps (fuel : nat) (is_training : bool)
    (epsilon : float) (i : nat) (v v' : Train.vars) :
  Train.terminated v = false ->
  Train.while_loop fuel is_training epsilon i v = Some (Ok v') ->
  let w := WarehouseRobotEnv.warehouse_robot (Train.env v) in
  let w' := WarehouseRobotEnv.warehouse_robot (Train.env v') in
  exists k,
    Train.steps_per_episode v'
    = <[i := float_of_Z (Train.step_count v + k)]>
        (Train.steps_per_episode v) /\
    Train.step_count v' = 0 /\
    Train.terminated v' = true /\
    WarehouseRobot.robot_pos w' = WarehouseRobot.target_pos w /\
    WarehouseRobot.target_pos w' = WarehouseRobot.target_pos w /\
    1 <= k <= Z.of_nat fuel /\
    manhattan (WarehouseRobot.robot_pos w) (WarehouseRobot.target_pos w) <= k.
Proof.
  revert v. induction fuel as [|fuel IH]; intros v Hrun Hloop; cbn zeta.
  - cbn in Hloop. rewrite Hrun in Hloop. discriminate.
  - cbn [Train.while_loop] in Hloop. rewrite Hrun in Hloop.
    destruct (Train.loop_body is_training epsilon i v) as [v1|e] eqn:Hbody;
      [|discriminate].
    destruct (loop_body_inv _ _ _ _ _ Hbody)
      as (action & a & _ & Henv & Hterm & _ & _ & Hsteps & Hcount).
    cbn zeta in Henv, Hterm, Hsteps, Hcount.
    set (w := WarehouseRobotEnv.warehouse_robot (Train.env v)) in *.
    pose proof (perform_action_fields a w) as (_ & _ & Ftarget & _).
    pose proof (perform_action_flag a w) as Hflag.
    pose proof (perform_action_manhattan a w (WarehouseRobot.target_pos w))
      as Hdist.
    cbn zeta in Ftarget.
    assert (Hw1 : WarehouseRobotEnv.warehouse_robot (Train.env v1)
                  = (WarehouseRobot.perform_action a w).2)
      by (rewrite Henv; reflexivity).
    destruct (WarehouseRobot.perform_action a w).1 eqn:Hreached.
    + destruct fuel as [|fuel']; cbn in Hloop; rewrite Hterm in Hloop;
        injection Hloop as <-; exists 1;
        rewrite Hw1, Ftarget, Hsteps, Hcount, Hterm;
        symmetry in Hflag; apply bool_decide_eq_true in Hflag;
        rewrite Hflag in Hdist; unfold manhattan in *;
        repeat split; auto; lia.
    + destruct (IH v1 Hterm Hloop)
        as (k & Hs & Hc & Ht & Hpos & Htar & Hk & Hm).
      rewrite Hw1, Ftarget in Hpos, Htar, Hm.
      exists (k + 1). rewrite Hs, Hsteps, Hcount.
      replace (Train.step_count v + 1 + k) with (Train.step_count v + (k + 1))
        by lia.
      repeat split; auto; lia.
Qed.


End Episode.


(** * Further properties: the loop never raises on a table of the grid's
    shape *)

Lemma argmax_from_range (l : list float) (mp : float) (max_ind i : Z) :
  0 <= max_ind < i ->
  0 <= argmax_from mp max_ind i l < i + Z.of_nat (length l).
Proof.
  revert mp max_ind i. induction l as [|x l IH]; intros mp max_ind i Hi;
    cbn [argmax_from length]; [lia|].
  destruct (is_nan mp); [lia|].
  destruct (negb (x <=? mp)%float).
  - pose proof (IH x i (i + 1) ltac:(lia)). lia.
  - pose proof (IH mp max_ind (i + 1) ltac:(lia)). lia.
Qed.

Lemma np_argmax_range (a : ndarray) :
  data a <> [] ->
  exists r, np_argmax a = Ok r /\ 0 <= r < Z.of_nat (length (data a)).
Proof.
  unfold np_argmax. destruct (data a) as [|x l]; [congruence|]. intros _.
  eexists. split; [reflexivity|].
  pose proof (argmax_from_range l x 0 1 ltac:(lia)). cbn [length]. lia.
Qed.

Lemma valid_index_snoc (sh s : list Z) (a d : Z) (rest : list Z) :
  valid_index sh s -> drop (length s) sh = d :: rest -> 0 <= a < d ->
  valid_index sh (s ++ [a]).
Proof.
  intros Hv. induction Hv as [sh | d0 i sh idx Hi Hv IH]; intros Hdrop Ha.
  - rewrite drop_0 in Hdrop. subst sh. cbn.
    constructor; [exact Ha | constructor].
  - cbn in Hdrop. cbn. constructor; [exact Hi | apply IH; assumption].
Qed.

Lemma observation_valid_index (R C : Z) (e : WarehouseRobotEnv.t) :
  env_ok R C e ->
  valid_index [R; C; R; C; 4]
    (WarehouseRobotEnv.observation (WarehouseRobotEnv.warehouse_robot e)).
Proof.
  intros (HR & HC & _ & _ & _ & _ & [Hp1 Hp2] & Ht1 & Ht2).
  unfold WarehouseRobotEnv.observation. repeat constructor; lia.
Qed.

Lemma q_update_ok (q : ndarray) (s s' : list Z) (a reward d : Z) :
  ndarray_wf q ->
  valid_index (shape q) s -> valid_index (shape q) s' ->
  length s' = length s ->
  drop (length s) (shape q) = [d] -> 0 <= a < d ->
  exists q',
    Train.q_update q (s ++ [a]) reward s' = Ok q' /\
    ndarray_wf q' /\ shape q' = shape q.
Proof.
  intros Hwf Hs Hs' Hlen Hdrop Ha.
  pose proof (valid_index_snoc _ _ _ _ _ Hs Hdrop Ha) as Hsa.
  assert (Hfull : length (s ++ [a]) = length (shape q)).
  { apply (f_equal length) in Hdrop. rewrite length_drop in Hdrop.
    rewrite length_app. cbn in *. lia. }
  destruct (getitem_scalar_valid q (s ++ [a]) Hwf Hsa Hfull)
    as (k & old & Hres & Hk & Hlook & Hold).
  destruct (getitem_valid q s' Hwf Hs')
    as (k' & row & _ & _ & Hrow & Hshape & _ & Hrowlen).
  rewrite Hlen, Hdrop in Hshape.
  assert (Hbest : exists best, np_max row = Ok best).
  { unfold np_max. rewrite Hshape in Hrowlen. cbn in Hrowlen.
    destruct (data row); [cbn in Hrowlen; lia | eauto]. }
  destruct Hbest as [best Hbest].
  unfold Train.q_update. rewrite Hold. cbn. rewrite Hrow. cbn.
  rewrite Hbest. cbn. rewrite (setitem_scalar q (s ++ [a]) k _ Hres).
  eexists. split; [reflexivity|]. split; [|reflexivity].
  destruct Hwf as [Hdims Hsize]. split; [exact Hdims|].
  cbn [shape data]. rewrite length_insert. exact Hsize.
Qed.

Section NeverRaises.
Context {R0 : RandomGen} {S0 : ActionSampler}.
Hypothesis sample_ok : sample_in_range.

Lemma select_action_ok (is_training : bool) (epsilon : float) (q : ndarray)
    (state : list Z) (g : rng) (sp : sampler) :
  ndarray_wf q -> valid_index (shape q) state ->
  drop (length state) (shape q) = [4] ->
  exists action g' sp',
    Train.select_action is_training epsilon q state g sp
    = Ok (action, g', sp') /\ 0 <= action < 4.
Proof using sample_ok.
  intros Hwf Hv Hdrop.
  destruct (getitem_valid q state Hwf Hv)
    as (k & row & _ & _ & Hrow & Hshape & _ & Hrowlen).
  rewrite Hdrop in Hshape. rewrite Hshape in Hrowlen. cbn in Hrowlen.
  destruct (np_argmax_range row) as (r & Harg & Hr).
  { destruct (data row); [cbn in Hrowlen; lia | discriminate]. }
  pose proof (sample_ok 4 sp ltac:(lia)) as Hsample.
  unfold Train.select_action. rewrite Hrow. cbn. rewrite Harg. cbn.
  destruct (discrete_sample 4 sp) as [ra sp'].
  destruct is_training.
  - destruct (rng_random g) as [u g'].
    destruct (u <? epsilon)%float; eexists; eexists; eexists;
      (split; [reflexivity|]); cbn in *; lia.
  - eexists; eexists; eexists. split; [reflexivity|]. lia.
Qed.

Lemma loop_body_ok (R C : Z) (is_training : bool) (epsilon : float)
    (i : nat) (v : Train.vars) :
  train_ok R C v ->
  exists v', Train.loop_body is_training epsilon i v = Ok v' /\
             train_ok R C v'.
Proof using sample_ok.
  intros (Henv & Hstate & Hwf & Hshape).
  pose proof (observation_valid_index R C _ Henv) as Hvalid.
  rewrite <- Hstate, <- Hshape in Hvalid.
  assert (Hlen : length (Train.state v) = 4%nat)
    by (rewrite Hstate; reflexivity).
  assert (Hdrop : drop (length (Train.state v)) (shape (Train.q v)) = [4])
    by (rewrite Hlen, Hshape; reflexivity).
  destruct (select_action_ok is_training epsilon (Train.q v) (Train.state v)
              (Train.gen v) (Train.space v) Hwf Hvalid Hdrop)
    as (action & g' & sp' & Hsel & Haction).
  destruct (RobotAction_call_cases action) as [[_ [a Ha]] | [Hout _]];
    [|lia].
  pose proof (step_env_ok R C a _ Henv) as Henv'.
  pose proof (observation_valid_index R C _ Henv') as Hvalid'.
  unfold Train.loop_body. rewrite Hsel. cbn.
  unfold WarehouseRobotEnv.step. rewrite Ha. cbn.
  destruct (WarehouseRobot.perform_action a
              (WarehouseRobotEnv.warehouse_robot (Train.env v)))
    as [reached w'] eqn:Hpa.
  cbn [snd] in Henv', Hvalid'.
  cbn [WarehouseRobotEnv.set_warehouse_robot
       WarehouseRobotEnv.warehouse_robot] in Hvalid'.
  rewrite <- Hshape in Hvalid'.
  destruct (q_update_ok (Train.q v) (Train.state v)
              (WarehouseRobotEnv.observation w') action
              (if reached then 1 else 0) 4 Hwf Hvalid Hvalid')
    as (q' & Hupd & Hwf' & Hshape'); [rewrite Hlen; reflexivity | exact Hdrop
                                      | exact Haction |].
  destruct reached, is_training; cbn; try rewrite Hupd; cbn;
    eexists; (split; [reflexivity|]);
    unfold train_ok;
    cbn [Train.env Train.state Train.q WarehouseRobotEnv.obs
         WarehouseRobotEnv.set_warehouse_robot
         WarehouseRobotEnv.warehouse_robot];
    (split; [exact Henv'|]); (split; [reflexivity|]);
    (split; [first [exact Hwf' | exact Hwf] | congruence]).
Qed.

Lemma while_loop_ok (R C : Z) (fuel : nat) (is_training : bool)
    (epsilon : float) (i : nat) (v : Train.vars) :
  train_ok R C v ->
  no_raise (train_ok R C) (Train.while_loop fuel is_training epsilon i v).
Proof using sample_ok.
  revert v. induction fuel as [|fuel IH]; intros v Hok;
    cbn [Train.while_loop]; destruct (Train.terminated v); cbn; auto.
  destruct (loop_body_ok R C is_training epsilon i v Hok) as (v' & Hbody & Hok').
  rewrite Hbody. apply IH, Hok'.
Qed.

Hypothesis randbelow_ok : randbelow_in_range.

Lemma episode_ok (R C : Z) (fuel : nat) (is_training : bool)
    (episodes : nat) (os_entropy : Z) (i : nat) (v : Train.vars)
    (epsilon : float) :
  table_ok R C v ->
  no_raise (fun ve => table_ok R C ve.1)
    (Train.episode fuel is_training episodes os_entropy i (v, epsilon)).
Proof using sample_ok randbelow_ok.
  intros (Henv & Hwf & Hshape).
  pose proof Henv as (HR & HC & Hr & Hc & Hwr & Hwc & _).
  destruct (reset_env_ok randbelow_ok R C None os_entropy (Train.env v)
              HR HC Hr Hc Hwr Hwc) as (e' & g & Hreset & Henv' & _).
  unfold Train.episode. rewrite Hreset.
  set (v0 := Train.mk_vars _ _ e' _ _ _ _ _ _ _).
  assert (Hok0 : train_ok R C v0) by (unfold train_ok; cbn; auto).
  pose proof (while_loop_ok R C fuel is_training epsilon i v0 Hok0) as Hloop.
  destruct (Train.while_loop fuel is_training epsilon i v0) as [[v'|e]|];
    cbn in *; auto.
  destruct Hloop as (He & _ & Hw & Hs). unfold table_ok. auto.
Qed.

Lemma episodes_loop_ok (R C : Z) (fuel : nat) (is_training : bool)
    (episodes : nat) (os_entropy : nat -> Z) (todo : list nat)
    (v : Train.vars) (epsilon : float) :
  table_ok R C v ->
  no_raise (fun ve => table_ok R C ve.1)
    (Train.episodes_loop fuel is_training episodes os_entropy todo
       (v, epsilon)).
Proof using sample_ok randbelow_ok.
  revert v epsilon. induction todo as [|i todo IH]; intros v epsilon Hok;
    cbn [Train.episodes_loop]; [exact Hok|].
  pose proof (episode_ok R C fuel is_training episodes (os_entropy i) i v
                epsilon Hok) as Hep.
  destruct (Train.episode _ _ _ _ _ _) as [[[v1 eps1]|e]|]; cbn in Hep;
    [apply IH, Hep | contradiction | exact I].
Qed.

Lemma np_zeros_wf (sh : list Z) :
  Forall (fun d => 0 <= d) sh -> ndarray_wf (np_zeros sh).
Proof.
  intros Hsh. split; [exact Hsh|]. cbn [np_zeros data shape].
  rewrite length_replicate. apply Z2Nat.id, size_of_nonneg, Hsh.
Qed.

(** X6. On a grid of at least 2 by 2, a training run never raises, and
    neither does an evaluation run whose loaded table is well formed and of
    shape (R, C, R, C, 4): whatever the draws, every lookup stays inside the
    table and every chosen action is one of the four.  A training run that
    returns saves a well-formed table of that shape. *)
Theorem run_q_never_raises (R C : Z) (fuel : nat) (entropy0 : Z)
    (os_entropy : nat -> Z) (pickled : ndarray) (sp : sampler)
    (episodes : nat) (is_training : bool) :
  2 <= R -> 2 <= C ->
  (is_training = false ->
   ndarray_wf pickled /\ shape pickled = [R; C; R; C; 4]) ->
  no_raise
    (fun rep =>
       if is_training
       then exists q, Train.saved rep = Some q /\ ndarray_wf q /\
                      shape q = [R; C; R; C; 4]
       else Train.saved rep = None)
    (Train.run_q R C fuel entropy0 os_entropy pickled sp episodes
       is_training).
Proof using sample_ok randbelow_ok.
  intros HR HC Hpickled.
  destruct (reset_env_ok randbelow_ok R C None entropy0
              (WarehouseRobotEnv.mk R C
                 (WarehouseRobot.mk R C (0, 0) (0, 0) None))
              HR HC eq_refl eq_refl eq_refl eq_refl)
    as (e' & g & Hreset & Henv' & _).
  unfold Train.run_q, Train.make.
  unfold WarehouseRobotEnv.reset in Hreset.
  cbn [WarehouseRobotEnv.warehouse_robot] in Hreset.
  destruct (WarehouseRobot.reset None entropy0 _) as [[w g0]|e];
    cbn in Hreset; [|discriminate].
  injection Hreset as _ He Hg. subst e' g. cbn.
  set (q0 := Train.initial_q is_training _ pickled).
  assert (Hq0 : ndarray_wf q0 /\ shape q0 = [R; C; R; C; 4]).
  { subst q0. unfold Train.initial_q. destruct is_training.
    - cbn [WarehouseRobotEnv.grid_rows WarehouseRobotEnv.grid_cols].
      split; [|reflexivity]. apply np_zeros_wf. repeat constructor; lia.
    - apply Hpickled. reflexivity. }
  set (v0 := Train.mk_vars _ _ _ q0 _ _ _ _ _ _).
  assert (Hok0 : table_ok R C v0) by (unfold table_ok; cbn; tauto).
  pose proof (episodes_loop_ok R C fuel is_training episodes os_entropy
                (seq 0 episodes) v0 1%float Hok0) as Hloop.
  destruct (Train.episodes_loop _ _ _ _ _ _) as [[[v' eps']|e]|];
    cbn in Hloop |- *; [|contradiction|exact I].
  destruct Hloop as (_ & Hwf' & Hshape').
  destruct is_training; [|reflexivity]. eauto.
Qed.

End NeverRaises.

Lemma run_q_never_raises_witness :
  exists rep q,
    @Train.run_q lcg lcg_sampler 2 2 100 0 (fun i => Z.of_nat i)
      (np_zeros []) 0 3 true = Some (Ok rep) /\
    Train.saved rep = Some q /\ ndarray_wf q /\ shape q = [2; 2; 2; 2; 4].
Proof.
  pose proof (@run_q_never_raises lcg lcg_sampler lcg_sample_in_range
                lcg_randbelow_in_range 2 2 100 0 (fun i => Z.of_nat i)
                (np_zeros []) 0 3%nat true ltac:(lia) ltac:(lia)
                ltac:(discriminate)) as Hrun.
  assert (Hsome : match @Train.run_q lcg lcg_sampler 2 2 100 0
                          (fun i => Z.of_nat i) (np_zeros []) 0 3 true with
                  | Some (Ok _) => true
                  | _ => false
                  end = true) by (vm_compute; reflexivity).
  destruct (@Train.run_q lcg lcg_sampler 2 2 100 0 (fun i => Z.of_nat i)
              (np_zeros []) 0 3 true) as [[rep|e]|]; try discriminate.
  cbn in Hrun. destruct Hrun as (q & Hsaved & Hwf & Hshape).
  exists rep, q. auto.
Defined.

(** * Further properties: the step counts of a run *)

Section StepCounts.
Context {R0 : RandomGen} {S0 : ActionSampler}.
Hypothesis randbelow_ok : randbelow_in_range.

Lemma while_loop_env_ok (R C : Z) (fuel : nat) (is_training : bool)
    (epsilon : float) (i : nat) (v v' : Train.vars) :
  env_ok R C (Train.env v) ->
  Train.while_loop fuel is_training epsilon i v = Some (Ok v') ->
  env_ok R C (Train.env v') /\
  length (Train.steps_per_episode v') = length (Train.steps_per_episode v).
Proof.
  revert v. induction fuel as [|fuel IH]; intros v Henv Hloop;
    cbn [Train.while_loop] in Hloop;
    destruct (Train.terminated v);
    try (injection Hloop as <-; auto); try discriminate.
  destruct (Train.loop_body is_training epsilon i v) as [v1|e] eqn:Hbody;
    [|discriminate].
  destruct (loop_body_inv _ _ _ _ _ Hbody)
    as (action & a & _ & He & _ & _ & _ & Hsteps & _).
  cbn zeta in He, Hsteps.
  destruct (IH v1) as [Henv' Hlen]; [rewrite He; apply step_env_ok, Henv
                                     | exact Hloop |].
  split; [exact Henv'|]. rewrite Hlen, Hsteps.
  destruct (WarehouseRobot.perform_action a _).1;
    [apply length_insert | reflexivity].
Qed.

Lemma episode_steps (R C : Z) (fuel : nat) (is_training : bool)
    (episodes : nat) (os_entropy : Z) (i : nat) (v v' : Train.vars)
    (epsilon epsilon' : float) :
  env_ok R C (Train.env v) -> Train.step_count v = 0 ->
  Train.episode fuel is_training episodes os_entropy i (v, epsilon)
  = Some (Ok (v', epsilon')) ->
  env_ok R C (Train.env v') /\ Train.step_count v' = 0 /\
  exists k, 2 <= k <= Z.of_nat fuel /\
            Train.steps_per_episode v'
            = <[i := float_of_Z k]> (Train.steps_per_episode v).
Proof using randbelow_ok.
  intros Henv Hcount Hep.
  pose proof Henv as (HR & HC & Hr & Hc & Hwr & Hwc & _).
  destruct (reset_env_ok randbelow_ok R C None os_entropy (Train.env v)
              HR HC Hr Hc Hwr Hwc) as (e' & g & Hreset & Henv' & Horigin).
  unfold Train.episode in Hep. rewrite Hreset in Hep.
  set (v0 := Train.mk_vars _ _ e' _ _ _ _ _ _ _) in Hep.
  destruct (Train.while_loop fuel is_training epsilon i v0)
    as [[v1|e]|] eqn:Hloop; [|discriminate|discriminate].
  injection Hep as <- _.
  destruct (while_loop_env_ok R C _ _ _ _ v0 v1 Henv' Hloop) as [Henv1 _].
  destruct (while_loop_steps _ _ _ _ v0 v1 eq_refl Hloop)
    as (k & Hsteps & Hc0 & _ & _ & _ & Hk & Hdist).
  split; [exact Henv1|]. split; [exact Hc0|].
  exists k. cbn [Train.step_count Train.steps_per_episode Train.env v0]
    in Hsteps, Hdist.
  rewrite Hcount in Hsteps. rewrite Z.add_0_l in Hsteps.
  split; [|exact Hsteps].
  rewrite Horigin in Hdist.
  destruct Henv' as (_ & _ & _ & _ & _ & _ & _ & Ht1 & Ht2).
  unfold manhattan in Hdist. cbn [fst snd] in Hdist. lia.
Qed.

Lemma episodes_loop_steps (R C : Z) (fuel : nat) (is_training : bool)
    (episodes : nat) (os_entropy : nat -> Z) (n j : nat)
    (v v' : Train.vars) (epsilon epsilon' : float) :
  env_ok R C (Train.env v) -> Train.step_count v = 0 ->
  (j + n <= length (Train.steps_per_episode v))%nat ->
  Train.episodes_loop fuel is_training episodes os_entropy (seq j n)
    (v, epsilon) = Some (Ok (v', epsilon')) ->
  length (Train.steps_per_episode v') = length (Train.steps_per_episode v) /\
  (forall i, (j <= i < j + n)%nat ->
     exists k, 2 <= k <= Z.of_nat fuel /\
               Train.steps_per_episode v' !! i = Some (float_of_Z k)) /\
  (forall i, (i < j)%nat ->
     Train.steps_per_episode v' !! i = Train.steps_per_episode v !! i).
Proof using randbelow_ok.
  revert j v epsilon. induction n as [|n IH]; intros j v epsilon Henv Hcount
    Hroom Hrun.
  - cbn in Hrun. injection Hrun as <- _.
    split; [reflexivity|]. split; [intros i Hi; lia | reflexivity].
  - cbn [seq Train.episodes_loop] in Hrun.
    destruct (Train.episode fuel is_training episodes (os_entropy j) j
                (v, epsilon)) as [[[v1 eps1]|e]|] eqn:Hep;
      [|discriminate|discriminate].
    destruct (episode_steps R C _ _ _ _ _ _ _ _ _ Henv Hcount Hep)
      as (Henv1 & Hcount1 & k & Hk & Hsteps1).
    assert (Hlen1 : length (Train.steps_per_episode v1)
                    = length (Train.steps_per_episode v))
      by (rewrite Hsteps1; apply length_insert).
    destruct (IH (Datatypes.S j) v1 eps1 Henv1 Hcount1 ltac:(lia) Hrun)
      as (Hlen & Hnew & Hold).
    split; [lia|]. split.
    + intros i Hi. destruct (decide (i = j)) as [-> | Hne].
      * exists k. split; [exact Hk|].
        rewrite Hold by lia. rewrite Hsteps1.
        apply list_lookup_insert_eq. lia.
      * apply Hnew. lia.
    + intros i Hi. rewrite Hold by lia. rewrite Hsteps1.
      apply list_lookup_insert_ne. lia.
Qed.

(** X7. On a grid of at least 2 by 2, a run that returns reports one step
    count and one moving-average value per episode, and every step count
    is a whole number of at least 2 steps and at most the fuel: no episode
    ends in fewer than two steps, because the goal is never in row 0 or
    column 0. *)
Theorem run_q_step_counts (R C : Z) (fuel : nat) (entropy0 : Z)
    (os_entropy : nat -> Z) (pickled : ndarray) (sp : sampler)
    (episodes : nat) (is_training : bool) (rep : Train.report) :
  2 <= R -> 2 <= C ->
  Train.run_q R C fuel entropy0 os_entropy pickled sp episodes is_training
  = Some (Ok rep) ->
  length (Train.steps rep) = episodes /\
  length (Train.sum_steps rep) = episodes /\
  forall i, (i < episodes)%nat ->
    exists k, 2 <= k <= Z.of_nat fuel /\
              Train.steps rep !! i = Some (float_of_Z k).
Proof using randbelow_ok.
  intros HR HC Hrun.
  destruct (reset_env_ok randbelow_ok R C None entropy0
              (WarehouseRobotEnv.mk R C
                 (WarehouseRobot.mk R C (0, 0) (0, 0) None))
              HR HC eq_refl eq_refl eq_refl eq_refl)
    as (e' & g & Hreset & Henv' & _).
  unfold Train.run_q, Train.make in Hrun.
  unfold WarehouseRobotEnv.reset in Hreset.
  cbn [WarehouseRobotEnv.warehouse_robot] in Hreset.
  destruct (WarehouseRobot.reset None entropy0 _) as [[w g0]|e];
    cbn in Hreset; [|discriminate].
  injection Hreset as _ He Hg. subst e' g. cbn in Hrun.
  set (v0 := Train.mk_vars _ _ _ _ _ _ _ _ _ _) in Hrun.
  destruct (Train.episodes_loop _ _ _ _ _ _) as [[[v' eps']|e]|] eqn:Hloop;
    [|discriminate|discriminate].
  injection Hrun as <-. cbn [Train.steps Train.sum_steps].
  assert (Hroom : (0 + episodes <= length (Train.steps_per_episode v0))%nat)
    by (cbn; rewrite length_replicate; lia).
  destruct (episodes_loop_steps R C fuel is_training episodes os_entropy
              episodes 0%nat v0 v' 1%float eps' Henv' eq_refl Hroom Hloop)
    as (Hlen & Hnew & _).
  cbn [Train.steps_per_episode v0] in Hlen. rewrite length_replicate in Hlen.
  split; [exact Hlen|]. split.
  - unfold Train.moving_average. rewrite length_map, length_seq. reflexivity.
  - intros i Hi. apply Hnew. lia.
Qed.

End StepCounts.

Lemma run_q_step_counts_witness :
  exists k, 2 <= k <= 100 /\ [4%float] !! 0%nat = Some (float_of_Z k).
Proof.
  assert (Hrun : @Train.run_q lcg lcg_sampler 4 5 100 0 (fun _ => 0)
                   table_5x6 0 1 false
                 = Some (Ok (Train.mk_report [4%float] [4%float] None)))
    by (vm_compute; reflexivity).
  destruct (@run_q_step_counts lcg lcg_sampler lcg_randbelow_in_range
              4 5 100 0 (fun _ => 0) table_5x6 0 1%nat false _
              ltac:(lia) ltac:(lia) Hrun) as (_ & _ & Hsteps).
  destruct (Hsteps 0%nat ltac:(lia)) as (k & Hk & Hlook).
  exists k. split; [exact Hk | exact Hlook].
Defined.

(** * Further properties: evaluating an untrained table *)

Lemma take_drop_replicate {A} (n m N : nat) (x : A) :
  (m + n <= N)%nat ->
  take n (drop m (replicate N x)) = replicate n x.
Proof.
  intros Hle. rewrite drop_replicate, take_replicate. f_equal. lia.
Qed.

Lemma getitem_zeros_row (sh idx : list Z) (n : Z) :
  Forall (fun d => 0 <= d) sh -> valid_index sh idx ->
  drop (length idx) sh = [n] ->
  getitem (np_zeros sh) idx
  = Ok (mk_ndarray [n] (replicate (Z.to_nat n) 0%float)).
Proof.
  intros Hsh Hv Hdrop.
  destruct (resolve_index_valid sh idx 0 Hsh Hv) as (k & Hres & Hlo & Hhi).
  pose proof (resolve_index_nonneg _ _ 0 _ _ Hv (Z.le_refl 0) Hres) as Hk.
  rewrite Hdrop in Hres, Hlo, Hhi. cbn [size_of foldr] in Hlo, Hhi.
  unfold getitem. cbn [np_zeros shape data]. rewrite Hres. cbn [mbind result_bind].
  cbn [size_of foldr]. rewrite Z.mul_1_r. f_equal. f_equal.
  apply take_drop_replicate.
  pose proof (size_of_nonneg sh Hsh). nia.
Qed.

Lemma perform_action_left_origin (w : WarehouseRobot.t) :
  WarehouseRobot.robot_pos w = (0, 0) ->
  WarehouseRobot.perform_action LEFT w
  = (bool_decide ((0, 0) = WarehouseRobot.target_pos w),
     WarehouseRobot.set_last_action LEFT w).
Proof.
  destruct w as [rows cols rp tp la]. cbn. intros ->. reflexivity.
Qed.

Section Untrained.
Context {R0 : RandomGen} {S0 : ActionSampler}.
Hypothesis randbelow_ok : randbelow_in_range.

Lemma zero_table_stays (R C : Z) (epsilon : float) (i : nat)
    (v : Train.vars) :
  env_ok R C (Train.env v) ->
  WarehouseRobot.robot_pos (WarehouseRobotEnv.warehouse_robot (Train.env v))
  = (0, 0) ->
  Train.state v
  = WarehouseRobotEnv.observation
      (WarehouseRobotEnv.warehouse_robot (Train.env v)) ->
  Train.q v = np_zeros [R; C; R; C; 4] ->
  exists v',
    Train.loop_body false epsilon i v = Ok v' /\
    env_ok R C (Train.env v') /\
    WarehouseRobot.robot_pos
      (WarehouseRobotEnv.warehouse_robot (Train.env v')) = (0, 0) /\
    Train.state v'
    = WarehouseRobotEnv.observation
        (WarehouseRobotEnv.warehouse_robot (Train.env v')) /\
    Train.q v' = np_zeros [R; C; R; C; 4] /\
    Train.terminated v' = false.
Proof.
  intros Henv Horigin Hstate Hq.
  pose proof (observation_valid_index R C _ Henv) as Hvalid.
  pose proof Henv as (HR & HC & _ & _ & _ & _ & _ & Ht1 & Ht2).
  pose proof (step_env_ok R C LEFT _ Henv) as Henv'.
  unfold Train.loop_body, Train.select_action.
  rewrite Hq, Hstate.
  rewrite (getitem_zeros_row [R; C; R; C; 4] _ 4);
    [| repeat constructor; lia | exact Hvalid | reflexivity].
  unfold WarehouseRobotEnv.step, mbind, result_bind. cbn beta iota.
  change (np_argmax
            {| shape := [4]; data := replicate (Z.to_nat 4) 0%float |})
    with (@Ok Z 0).
  cbn beta iota. change (RobotAction_call 0) with (Ok LEFT). cbn beta iota.
  rewrite (perform_action_left_origin _ Horigin).
  assert (Hflag : bool_decide
                    ((0, 0) = WarehouseRobot.target_pos
                                (WarehouseRobotEnv.warehouse_robot
                                   (Train.env v))) = false).
  { apply bool_decide_eq_false. intros Heq. rewrite <- Heq in Ht1.
    cbn in Ht1. lia. }
  rewrite Hflag. cbn beta iota.
  rewrite (perform_action_left_origin _ Horigin) in Henv'. cbn [snd] in Henv'.
  eexists. split; [reflexivity|].
  cbn [Train.env Train.state Train.q Train.terminated WarehouseRobotEnv.obs
       WarehouseRobotEnv.terminated].
  split; [exact Henv'|]. split; [exact Horigin|]. auto.
Qed.

Lemma zero_table_loops (R C : Z) (fuel : nat) (epsilon : float) (i : nat)
    (v : Train.vars) :
  env_ok R C (Train.env v) ->
  WarehouseRobot.robot_pos (WarehouseRobotEnv.warehouse_robot (Train.env v))
  = (0, 0) ->
  Train.state v
  = WarehouseRobotEnv.observation
      (WarehouseRobotEnv.warehouse_robot (Train.env v)) ->
  Train.q v = np_zeros [R; C; R; C; 4] ->
  Train.terminated v = false ->
  Train.while_loop fuel false epsilon i v = None.
Proof.
  revert v. induction fuel as [|fuel IH];
    intros v Henv Horigin Hstate Hq Hterm;
    cbn [Train.while_loop]; rewrite Hterm; [reflexivity|].
  destruct (zero_table_stays R C epsilon i v Henv Horigin Hstate Hq)
    as (v' & Hbody & Henv' & Horigin' & Hstate' & Hq' & Hterm').
  rewrite Hbody. apply IH; assumption.
Qed.

(** X8. On a grid of at least 2 by 2, an evaluation run of at least one
    episode on the all-zero table of shape (R, C, R, C, 4) never ends: the
    greedy action is LEFT in every state, the robot stays at (0,0), which
    is never the goal, and the first episode is still running whatever the
    fuel. *)
Theorem untrained_evaluation_never_ends (R C : Z) (fuel : nat)
    (entropy0 : Z) (os_entropy : nat -> Z) (sp : sampler) (episodes : nat) :
  2 <= R -> 2 <= C ->
  Train.run_q R C fuel entropy0 os_entropy (np_zeros [R; C; R; C; 4]) sp
    (Datatypes.S episodes) false = None.
Proof using randbelow_ok.
  intros HR HC.
  destruct (reset_env_ok randbelow_ok R C None entropy0
              (WarehouseRobotEnv.mk R C
                 (WarehouseRobot.mk R C (0, 0) (0, 0) None))
              HR HC eq_refl eq_refl eq_refl eq_refl)
    as (e' & g & Hreset & Henv' & _).
  unfold Train.run_q, Train.make.
  unfold WarehouseRobotEnv.reset in Hreset.
  cbn [WarehouseRobotEnv.warehouse_robot] in Hreset.
  destruct (WarehouseRobot.reset None entropy0 _) as [[w g0]|e];
    cbn in Hreset; [|discriminate].
  injection Hreset as _ He Hg. subst e' g.
  cbn [mbind result_bind Train.initial_q seq Train.episodes_loop].
  pose proof Henv' as (_ & _ & Hr & Hc & Hwr & Hwc & _).
  destruct (reset_env_ok randbelow_ok R C None (os_entropy 0%nat)
              (WarehouseRobotEnv.mk R C w) HR HC Hr Hc Hwr Hwc)
    as (e1 & g1 & Hreset1 & Henv1 & Horigin1).
  unfold Train.episode. cbn [Train.env]. rewrite Hreset1.
  rewrite (zero_table_loops R C fuel); auto.
Qed.

End Untrained.

Lemma untrained_evaluation_never_ends_witness :
  @Train.run_q lcg lcg_sampler 4 5 1000 0 (fun _ => 0)
    (np_zeros [4; 5; 4; 5; 4]) 0 1 false = None.
Proof.
  apply (@untrained_evaluation_never_ends lcg lcg_sampler
           lcg_randbelow_in_range 4 5 1000 0 (fun _ => 0) 0 0%nat); lia.
Defined.

(** * Further properties: the reset of the environment, and evaluation *)



(** X10. Evaluation draws no random number and never writes to the table:
    an episode loop run with [is_training] false ends with the table, the
    generator of [random] and the generator of the action space as they
    were when it started. *)
Theorem evaluation_draws_nothing {R0 : RandomGen} {S0 : ActionSampler}
    (fuel : nat) (epsilon : float) (i : nat) (v v' : Train.vars) :
  Train.while_loop fuel false epsilon i v = Some (Ok v') ->
  Train.q v' = Train.q v /\
  Train.gen v' = Train.gen v /\
  Train.space v' = Train.space v.
Proof.
  revert v. induction fuel as [|fuel IH]; intros v Hloop;
    cbn [Train.while_loop] in Hloop;
    destruct (Train.terminated v);
    try (injection Hloop as <-; auto); try discriminate.
  destruct (Train.loop_body false epsilon i v) as [v1|e] eqn:Hbody;
    [|discriminate].
  destruct (IH v1 Hloop) as (Hq & Hg & Hs). rewrite Hq, Hg, Hs.
  unfold Train.loop_body, Train.select_action in Hbody.
  destruct (getitem (Train.q v) (Train.state v)) as [row|e]; cbn in Hbody;
    [|discriminate].
  destruct (np_argmax row) as [action|e]; cbn in Hbody; [|discriminate].
  destruct (WarehouseRobotEnv.step action (Train.env v)) as [[r e']|e];
    cbn in Hbody; [|discriminate].
  destruct (WarehouseRobotEnv.terminated r); injection Hbody as <-; auto.
Qed.

Lemma evaluation_draws_nothing_witness :
  let v := Train.mk_vars lcg lcg_sampler
             (WarehouseRobotEnv.mk 4 5
                (WarehouseRobot.mk 4 5 (0, 0) (2, 2) None))
             table_5x6 [0; 0; 2; 2] false 0 [0%float] 11 13 in
  exists v',
    Train.while_loop 10 false 1%float 0 v = Some (Ok v') /\
    Train.gen v' = 11 /\ Train.space v' = 13.
Proof.
  cbn zeta.
  set (v := Train.mk_vars lcg lcg_sampler _ _ _ _ _ _ _ _).
  assert (Hsome : match Train.while_loop 10 false 1%float 0 v with
                  | Some (Ok _) => true
                  | _ => false
                  end = true) by (vm_compute; reflexivity).
  destruct (Train.while_loop 10 false 1%float 0 v) as [[v'|e]|] eqn:Hloop;
    [|discriminate|discriminate].
  destruct (evaluation_draws_nothing 10 1%float 0 v v' Hloop)
    as (_ & Hg & Hs).
  exists v'. split; [reflexivity|]. split; [exact Hg | exact Hs].
Defined.

(** * Further properties: what [render] prints *)

Lemma occurrences_app (t : GridTile) (l1 l2 : list GridTile) :
  occurrences t (l1 ++ l2) = (occurrences t l1 + occurrences t l2)%nat.
Proof. unfold occurrences. rewrite filter_app, length_app. reflexivity. Qed.

Lemma occurrences_none {A} (t : GridTile) (f : A -> GridTile) (l : list A) :
  (forall x, f x <> t) -> occurrences t (map f l) = 0%nat.
Proof.
  intros Hf. induction l as [|x l IH]; [reflexivity|].
  unfold occurrences in *. cbn [map].
  rewrite filter_cons_False by apply Hf. exact IH.
Qed.

Lemma occurrences_seq (t : GridTile) (f : Z -> GridTile) (c0 : Z) (k : nat) :
  (forall c, f c = t <-> c = c0) ->
  occurrences t (map f (map Z.of_nat (seq 0 k)))
  = if decide (0 <= c0 < Z.of_nat k) then 1%nat else 0%nat.
Proof.
  intros Hf. induction k as [|k IH].
  - cbn. destruct (decide _); [lia | reflexivity].
  - rewrite seq_S, !map_app, occurrences_app, IH. cbn [map Nat.add].
    unfold occurrences at 1.
    destruct (decide (Z.of_nat k = c0)) as [Heq | Hne].
    + rewrite filter_cons_True by (apply Hf, Heq). cbn.
      repeat destruct (decide _); lia.
    + rewrite filter_cons_False by (intros H; apply Hf in H; contradiction).
      cbn. repeat destruct (decide _); lia.
Qed.

Lemma occurrences_concat_seq (t : GridTile) (g : Z -> list GridTile)
    (r0 : Z) (k : nat) :
  (forall r, r <> r0 -> occurrences t (g r) = 0%nat) ->
  occurrences t (concat (map g (map Z.of_nat (seq 0 k))))
  = if decide (0 <= r0 < Z.of_nat k) then occurrences t (g r0) else 0%nat.
Proof.
  intros Hg. induction k as [|k IH].
  - cbn. destruct (decide _); [lia | reflexivity].
  - rewrite seq_S, !map_app, concat_app, occurrences_app, IH.
    cbn [map Nat.add concat]. rewrite app_nil_r.
    destruct (decide (Z.of_nat k = r0)) as [Heq | Hne].
    + rewrite Heq. repeat destruct (decide _); lia.
    + rewrite (Hg _ Hne). repeat destruct (decide _); lia.
Qed.

Lemma tile_at_robot (w : WarehouseRobot.t) (r c : Z) :
  tile_at w r c = ROBOT <-> (r, c) = WarehouseRobot.robot_pos w.
Proof.
  unfold tile_at. repeat case_bool_decide; split; intros; try congruence.
Qed.

Lemma tile_at_target (w : WarehouseRobot.t) (r c : Z) :
  tile_at w r c = TARGET
  <-> (r, c) = WarehouseRobot.target_pos w /\
      WarehouseRobot.target_pos w <> WarehouseRobot.robot_pos w.
Proof.
  unfold tile_at. repeat case_bool_decide; split;
    try intros [? ?]; intros; try congruence; try discriminate.
  split; congruence.
Qed.

(** X11. [render] prints one row of tiles per grid row and one tile per
    column.  With the robot on the grid, exactly one tile is the robot; with
    the goal on the grid, the goal is printed exactly once unless the robot
    stands on it, and then not at all.  The three tiles print as the
    different letters "_", "R" and "T". *)
Theorem render_tiles_counts (w : WarehouseRobot.t) :
  0 <= WarehouseRobot.grid_rows w -> 0 <= WarehouseRobot.grid_cols w ->
  length (render_tiles w) = Z.to_nat (WarehouseRobot.grid_rows w) /\
  Forall (fun row => length row = Z.to_nat (WarehouseRobot.grid_cols w))
    (render_tiles w) /\
  (in_grid (WarehouseRobot.grid_rows w) (WarehouseRobot.grid_cols w)
     (WarehouseRobot.robot_pos w) ->
   occurrences ROBOT (concat (render_tiles w)) = 1%nat) /\
  (in_grid (WarehouseRobot.grid_rows w) (WarehouseRobot.grid_cols w)
     (WarehouseRobot.target_pos w) ->
   occurrences TARGET (concat (render_tiles w))
   = if decide (WarehouseRobot.target_pos w = WarehouseRobot.robot_pos w)
     then 0%nat else 1%nat) /\
  GridTile_str _FLOOR = "_"%string /\
  GridTile_str ROBOT = "R"%string /\
  GridTile_str TARGET = "T"%string.
Proof.
  intros HR HC. unfold render_tiles, py_range.
  split; [rewrite !length_map, length_seq; reflexivity|].
  split.
  { apply Forall_map, Forall_forall. intros r _. cbn.
    rewrite !length_map, length_seq. reflexivity. }
  split; [|split; [|repeat split]].
  - intros [Hp1 Hp2].
    destruct (WarehouseRobot.robot_pos w) as [pr pc] eqn:Hpos.
    cbn [fst snd] in Hp1, Hp2.
    rewrite (occurrences_concat_seq ROBOT _ pr).
    + rewrite decide_True by lia.
      rewrite (occurrences_seq ROBOT _ pc).
      * rewrite decide_True by lia. reflexivity.
      * intros c. rewrite tile_at_robot, Hpos. split; congruence.
    + intros r Hne. apply occurrences_none.
      intros c Htile. apply tile_at_robot in Htile. congruence.
  - intros [Ht1 Ht2].
    destruct (WarehouseRobot.target_pos w) as [tr tc] eqn:Htar.
    cbn [fst snd] in Ht1, Ht2.
    destruct (decide ((tr, tc) = WarehouseRobot.robot_pos w)) as [Hon | Hoff].
    + rewrite (occurrences_concat_seq TARGET _ tr).
      * rewrite decide_True by lia. apply occurrences_none.
        intros c Htile. apply tile_at_target in Htile as [_ Hne].
        rewrite Htar in Hne. contradiction.
      * intros r _. apply occurrences_none.
        intros c Htile. apply tile_at_target in Htile as [_ Hne].
        rewrite Htar in Hne. contradiction.
    + rewrite (occurrences_concat_seq TARGET _ tr).
      * rewrite decide_True by lia.
        rewrite (occurrences_seq TARGET _ tc).
        -- rewrite decide_True by lia. reflexivity.
        -- intros c. rewrite tile_at_target, Htar.
           split; [intros [Heq _]; congruence | intros ->; auto].
      * intros r Hne. apply occurrences_none.
        intros c Htile. apply tile_at_target in Htile as [Heq _].
        rewrite Htar in Heq. congruence.
Qed.

Lemma render_tiles_counts_witness :
  let w := WarehouseRobot.mk 2 3 (1, 2) (1, 2) (Some RIGHT) in
  occurrences ROBOT (concat (render_tiles w)) = 1%nat /\
  occurrences TARGET (concat (render_tiles w)) = 0%nat /\
  render_tiles w = [[_FLOOR; _FLOOR; _FLOOR]; [_FLOOR; _FLOOR; ROBOT]] /\
  render_console w
  = String.append "_ _ _ "%string
      (String.append newline
         (String.append "_ _ R "%string (String.append newline newline))).
Proof.
  cbn zeta.
  destruct (render_tiles_counts
              (WarehouseRobot.mk 2 3 (1, 2) (1, 2) (Some RIGHT)))
    as (_ & _ & Hrobot & Htarget & _); [cbn; lia | cbn; lia |].
  split; [apply Hrobot; unfold in_grid; cbn; lia|].
  split; [rewrite Htarget by (unfold in_grid; cbn; lia); reflexivity|].
  split; reflexivity.
Defined.

(** * Further properties: runs that start badly or have nothing to do *)

Lemma reset_small_grid {R0 : RandomGen} (seed : option Z) (os_entropy : Z)
    (w : WarehouseRobot.t) :
  WarehouseRobot.grid_rows w < 2 \/ WarehouseRobot.grid_cols w < 2 ->
  WarehouseRobot.reset seed os_entropy w = Raise ValueError.
Proof.
  destruct w as [rows cols rp tp la]. cbn. intros Hsmall.
  unfold WarehouseRobot.reset, randint, randrange. cbn.
  destruct (0 <? rows - 1 + 1 - 1) eqn:Hr; [|reflexivity].
  apply Z.ltb_lt in Hr.
  destruct (rng_randbelow _ _) as [r g1]. cbn.
  destruct (0 <? cols - 1 + 1 - 1) eqn:Hc; [|reflexivity].
  apply Z.ltb_lt in Hc. lia.
Qed.

(** X12. On a grid with fewer than 2 rows or fewer than 2 columns [run_q]
    raises a [ValueError] while the environment is being built, before any
    episode, in training and in evaluation alike. *)
Theorem run_q_small_grid {R0 : RandomGen} {S0 : ActionSampler}
    (R C : Z) (fuel : nat) (entropy0 : Z) (os_entropy : nat -> Z)
    (pickled : ndarray) (sp : sampler) (episodes : nat)
    (is_training : bool) :
  R < 2 \/ C < 2 ->
  Train.run_q R C fuel entropy0 os_entropy pickled sp episodes is_training
  = Some (Raise ValueError).
Proof.
  intros Hsmall.
  unfold Train.run_q, Train.make.
  rewrite reset_small_grid by exact Hsmall. reflexivity.
Qed.

Lemma run_q_small_grid_witness :
  @Train.run_q lcg lcg_sampler 1 5 100 0 (fun _ => 0) table_5x6 0 3 true
  = Some (Raise ValueError).
Proof.
  apply (@run_q_small_grid lcg lcg_sampler). left. lia.
Defined.

(** X13. A run of no episodes on a grid of at least 2 by 2 returns at once
    with no step counts and an empty moving average; when training it saves
    the all-zero table of shape (R, C, R, C, 4). *)
Theorem run_q_no_episodes {R0 : RandomGen} {S0 : ActionSampler}
    (R C : Z) (fuel : nat) (entropy0 : Z) (os_entropy : nat -> Z)
    (pickled : ndarray) (sp : sampler) (is_training : bool) :
  randbelow_in_range ->
  2 <= R -> 2 <= C ->
  Train.run_q R C fuel entropy0 os_entropy pickled sp 0 is_training
  = Some (Ok (Train.mk_report [] []
                (if is_training then Some (np_zeros [R; C; R; C; 4])
                 else None))).
Proof.
  intros Hrand HR HC.
  destruct (reset_env_ok Hrand R C None entropy0
              (WarehouseRobotEnv.mk R C
                 (WarehouseRobot.mk R C (0, 0) (0, 0) None))
              HR HC eq_refl eq_refl eq_refl eq_refl)
    as (e' & g & Hreset & _ & _).
  unfold Train.run_q, Train.make.
  unfold WarehouseRobotEnv.reset in Hreset.
  cbn [WarehouseRobotEnv.warehouse_robot] in Hreset.
  destruct (WarehouseRobot.reset None entropy0 _) as [[w g0]|e];
    cbn in Hreset; [|discriminate].
  cbn. destruct is_training; reflexivity.
Qed.

Lemma run_q_no_episodes_witness :
  @Train.run_q lcg lcg_sampler 4 5 100 0 (fun _ => 0) table_5x6 0 0 false
  = Some (Ok (Train.mk_report [] [] None)).
Proof.
  apply (@run_q_no_episodes lcg lcg_sampler 4 5 100 0 (fun _ => 0)
           table_5x6 0 false lcg_randbelow_in_range); lia.
Defined.
